(** * pulsechain: a shallow embedding of the explorer client

    The Python package [pulsechain] wraps a block-explorer REST API.  This
    development embeds the parts of it that decide how a method call becomes
    an HTTP GET request: the argument binding of a Python call, the
    [paginated] decorator, the validators, the request handler with its
    status-code dispatch, the sub-path client and the resource-client methods
    that validate filter arguments.

    Python values are a small dynamically typed universe ([pyval]); effects
    (the HTTP transport and the exceptions) are threaded through a
    state-and-error monad whose state is the log of the requests issued. *)

From Stdlib Require Import String Ascii List ZArith Bool Lia DecimalString.
Import ListNotations.
Open Scope string_scope.
Set Warnings "-register-all".

(* ------------------------------------------------------------------ *)
(** ** Python values *)

Module Py.

(** The values that reach the client: JSON documents and call arguments.
    Dictionaries keep insertion order and have string keys (keyword
    arguments, query parameters and JSON objects all do).  Numbers are
    integers: the client never computes with them. *)
Inductive pyval : Type :=
| VNone
| VBool (b : bool)
| VInt (z : Z)
| VStr (s : string)
| VList (l : list pyval)
| VDict (d : list (string * pyval)).

Definition dict := list (string * pyval).

(** [bool(v)]: the truth value tested by [if v:] and by [v or w]. *)
Definition truthy (v : pyval) : bool :=
  match v with
  | VNone => false
  | VBool b => b
  | VInt z => negb (Z.eqb z 0)
  | VStr s => negb (String.eqb s EmptyString)
  | VList l => match l with [] => false | _ => true end
  | VDict d => match d with [] => false | _ => true end
  end.

(** [v or w] *)
Definition por (v w : pyval) : pyval := if truthy v then v else w.

(** [d.get(k)] on the association list of a dictionary. *)
Fixpoint lookup (k : string) (d : dict) : option pyval :=
  match d with
  | [] => None
  | (k', v) :: d' => if String.eqb k k' then Some v else lookup k d'
  end.

(** [d[k] = v]: an existing key keeps its position, a new key goes last. *)
Fixpoint store (k : string) (v : pyval) (d : dict) : dict :=
  match d with
  | [] => [(k, v)]
  | (k', v') :: d' =>
      if String.eqb k k' then (k', v) :: d' else (k', v') :: store k v d'
  end.

(** The dictionary left once key [k] is removed. *)
Fixpoint remove (k : string) (d : dict) : dict :=
  match d with
  | [] => []
  | (k', v) :: d' =>
      if String.eqb k k' then remove k d' else (k', v) :: remove k d'
  end.

(** [d.pop(k, default)]: the value and the remaining dictionary. *)
Definition pop (k : string) (default : pyval) (d : dict) : pyval * dict :=
  match lookup k d with
  | Some v => (v, remove k d)
  | None => (default, d)
  end.

(** [str(z)] of an integer. *)
Definition str_of_int (z : Z) : string := NilZero.string_of_int (Z.to_int z).

(** [str(v)], as an f-string field [{v}] renders it.  The rendering of a
    list or a dictionary is left to [container_str]: no path of the client
    is built from one when the callers respect the [str] annotations. *)
Definition format_value (container_str : pyval -> string) (v : pyval) : string :=
  match v with
  | VNone => "None"
  | VBool true => "True"
  | VBool false => "False"
  | VInt z => str_of_int z
  | VStr s => s
  | VList _ | VDict _ => container_str v
  end.

(** The kinds of [TypeError] the interpreter raises in this code. *)
Inductive type_error : Type :=
| UnexpectedKeyword (name : string)
| MultipleValues (name : string)
| TooManyPositional (given : nat)
| MissingArgument (name : string)
| NotIterable
| Unhashable
| BadSubscript
| NoItemAssignment
| JoinExpectedStr.

(** The bound of a slice of a sequence of length [len]: a negative index
    counts from the end, and the result is clamped to the sequence. *)
Definition slice_bound (len i : Z) : nat :=
  Z.to_nat (Z.max 0 (Z.min len (if Z.ltb i 0 then i + len else i))).

(** [s[:stop]] *)
Definition slice_to (s : string) (stop : Z) : string :=
  string_of_list_ascii
    (firstn (slice_bound (Z.of_nat (String.length s)) stop)
            (list_ascii_of_string s)).

(** [s[start:]] *)
Definition slice_from (s : string) (start : Z) : string :=
  string_of_list_ascii
    (skipn (slice_bound (Z.of_nat (String.length s)) start)
           (list_ascii_of_string s)).

End Py.
Export Py.

(* ------------------------------------------------------------------ *)
(** ** exceptions.py and the HTTP response *)

(** What the client reads of an [httpx.Response]: the status code, the raw
    body text and the outcome of [response.json()] ([None] when the body
    does not decode). *)
Record Response : Type := mkResponse {
  status_code : Z;
  text : string;
  json : option pyval
}.

(** The timeout exceptions of the HTTP library: with [timeout=] given,
    [httpx.get] may raise any of these subclasses of
    [httpx.TimeoutException]. *)
Inductive httpx_timeout : Type :=
| ConnectTimeout
| ReadTimeout
| WriteTimeout
| PoolTimeout.

Inductive exn : Type :=
| PulseChainTimeoutException (message : string)
| PulseChainServerError (response : Response)
| PulseChainUnprocessableEntityException (message : pyval)
| PulseChainBadRequestException (message : pyval)
| PulseChainUnknownException (description : string)
| PulseChainBadParamException (message : string)
| TypeError (kind : type_error)
| KeyError (key : string)
| JSONDecodeError
| ValidationError
| HttpxTimeout (kind : httpx_timeout) (message : string)
| TransportError (name : string).

Inductive outcome (A : Type) : Type :=
| Returned (a : A)
| Raised (e : exn).
Arguments Returned {A} a.
Arguments Raised {A} e.

(** Sequencing of pure steps that may raise. *)
Definition obind {A B} (x : outcome A) (f : A -> outcome B) : outcome B :=
  match x with
  | Returned a => f a
  | Raised e => Raised e
  end.

Notation "'try' x <- c1 ; c2" := (obind c1 (fun x => c2))
  (at level 61, x name, c1 at next level, right associativity).

(** [v[k]] for a string key. *)
Definition getitem (v : pyval) (k : string) : outcome pyval :=
  match v with
  | VDict d => match lookup k d with
               | Some x => Returned x
               | None => Raised (KeyError k)
               end
  | _ => Raised (TypeError BadSubscript)
  end.

(** [v[k] = x] for a string key. *)
Definition setitem (v : pyval) (k : string) (x : pyval) : outcome pyval :=
  match v with
  | VDict d => Returned (VDict (store k x d))
  | _ => Raised (TypeError NoItemAssignment)
  end.

(** [for x in v]: the elements the loop visits. *)
Definition iterate (v : pyval) : outcome (list pyval) :=
  match v with
  | VList l => Returned l
  | VStr s => Returned (map (fun c => VStr (String c EmptyString)) (list_ascii_of_string s))
  | VDict d => Returned (map (fun kv => VStr (fst kv)) d)
  | _ => Raised (TypeError NotIterable)
  end.

(** [x not in {s1, ..., sn}] for a set of string literals. *)
Definition not_in (x : pyval) (allowed : list string) : outcome bool :=
  match x with
  | VStr s => Returned (negb (existsb (String.eqb s) allowed))
  | VList _ | VDict _ => Raised (TypeError Unhashable)
  | _ => Returned true
  end.

(** The strings of a list of values, when all of them are strings. *)
Fixpoint strings_of (l : list pyval) : outcome (list string) :=
  match l with
  | [] => Returned []
  | VStr s :: l' => try r <- strings_of l' ; Returned (s :: r)
  | _ :: _ => Raised (TypeError JoinExpectedStr)
  end.

(** [sep.join(v)] *)
Definition join (sep : string) (v : pyval) : outcome string :=
  try xs <- iterate v ;
  try ss <- strings_of xs ;
  Returned (String.concat sep ss).

(* ------------------------------------------------------------------ *)
(** ** validators.py *)

Module Validators.

(** The loop shared by the list validators:
    [for x in xs: if x not in allowed: raise PulseChainBadParamException(msg)] *)
Fixpoint check_each (allowed : list string) (msg : string) (xs : list pyval)
  : outcome unit :=
  match xs with
  | [] => Returned tt
  | x :: xs' =>
      try bad <- not_in x allowed ;
      if bad then Raised (PulseChainBadParamException msg)
      else check_each allowed msg xs'
  end.

Definition validate_list (allowed : list string) (msg sep : string) (v : pyval)
  : outcome string :=
  try xs <- iterate v ;
  try _ <- check_each allowed msg xs ;
  join sep v.

Definition valid_block_types := ["block"; "uncle"; "reorg"].
Definition validate_block_type : pyval -> outcome string :=
  validate_list valid_block_types
    "block_type must be one of 'block', 'uncle', or 'reorg'" ",".

Definition valid_txn_types :=
  ["token_transfer"; "contract_creation"; "contract_call"; "coin_transfer";
   "token_creation"].
Definition validate_txn_type : pyval -> outcome string :=
  validate_list valid_txn_types
    "txn_type must be one of 'token_transfer', 'contract_creation', 'contract_call', 'coin_transfer', or 'token_creation'"
    ",".

Definition valid_txn_filters := ["pending"; "validated"].
Definition validate_txn_filter : pyval -> outcome string :=
  validate_list valid_txn_filters
    "txn_filter must be either 'pending' or 'validated'" " | ".

Definition valid_address_txn_filters := ["to"; "from"].
Definition validate_address_txn_filter (txn_filter : pyval) : outcome pyval :=
  try bad <- not_in txn_filter valid_address_txn_filters ;
  if bad then
    Raised (PulseChainBadParamException "txn_filter must be either 'to' or 'from'")
  else Returned txn_filter.

Definition valid_methods := ["approve"; "transfer"; "multicall"; "mint"; "commit"].
Definition validate_method : pyval -> outcome string :=
  validate_list valid_methods
    "method must be either 'approve', 'transfer', 'multicall', 'mint', or 'commit'"
    ",".

Definition valid_token_types := ["ERC-20"; "ERC-721"; "ERC-1155"].
Definition validate_token_type : pyval -> outcome string :=
  validate_list valid_token_types
    "token_type must be one of 'ERC-20', 'ERC-721', or 'ERC-1155'" ",".

Definition valid_contract_filters := ["vyper"; "solidity"; "yul"].
Definition validate_contract_filters : pyval -> outcome string :=
  validate_list valid_contract_filters
    "contract_filter must be one of 'vyper', 'solidity' or 'yul'" " | ".

End Validators.

(* ------------------------------------------------------------------ *)
(** ** The transport and the monad of client code *)

(** One call of [httpx.get(url, params=params, timeout=timeout)]. *)
Record Request : Type := mkRequest {
  req_url : string;
  req_params : pyval;
  req_timeout : Z
}.

(** What [httpx.get] does: it returns a response, raises one of its
    timeout exceptions with a message, or raises some other exception. *)
Inductive transport_result : Type :=
| Responds (r : Response)
| TimesOut (kind : httpx_timeout) (message : string)
| Fails (name : string).

(** The network, as the client sees it: the result of a request may depend
    on the requests issued before it. *)
Definition transport := list Request -> Request -> transport_result.

(** Client code reads the transport, appends to the log of issued requests
    and returns or raises. *)
Definition M (A : Type) : Type :=
  transport -> list Request -> outcome A * list Request.

Definition ret {A} (a : A) : M A := fun _ log => (Returned a, log).

Definition raise {A} (e : exn) : M A := fun _ log => (Raised e, log).

Definition bind {A B} (m : M A) (f : A -> M B) : M B :=
  fun net log =>
    match m net log with
    | (Returned a, log') => f a net log'
    | (Raised e, log') => (Raised e, log')
    end.

Definition lift {A} (x : outcome A) : M A := fun _ log => (x, log).

Notation "x <- c1 ;; c2" := (bind c1 (fun x => c2))
  (at level 61, c1 at next level, right associativity).
Notation "' pat <- c1 ;; c2" :=
  (bind c1 (fun x => match x with pat => c2 end))
  (at level 61, pat pattern, c1 at next level, right associativity).

(** The single effect: issue the request, log it, obtain the transport's
    result. *)
Definition httpx_get (req : Request) : transport -> list Request ->
                                        transport_result * list Request :=
  fun net log => (net log req, (log ++ [req])%list).

(* ------------------------------------------------------------------ *)
(** ** req_handler.py *)

Module APIRequestHandler.

Record t : Type := mk { base_url : string; timeout : Z }.

(** [__init__(self, base_url, timeout=60)] *)
Definition init (base_url : string) : t := mk base_url 60.

(** [response.json()["message"]], evaluated by the constructors of the 400
    and 422 exceptions. *)
Definition body_message (response : Response) : outcome pyval :=
  match json response with
  | Some body => getitem body "message"
  | None => Raised JSONDecodeError
  end.

(** The exception that [raise PulseChainUnprocessableEntityException(response)]
    propagates: the one built, or the one its constructor raised. *)
Definition unprocessable_entity (response : Response) : exn :=
  match body_message response with
  | Returned m => PulseChainUnprocessableEntityException m
  | Raised e => e
  end.

Definition bad_request (response : Response) : exn :=
  match body_message response with
  | Returned m => PulseChainBadRequestException m
  | Raised e => e
  end.

Definition _check_result (response : Response) : outcome pyval :=
  if Z.eqb (status_code response) 200 then
    match json response with
    | Some body => Returned body
    | None => Raised JSONDecodeError
    end
  else if Z.eqb (status_code response) 500 then
    Raised (PulseChainServerError response)
  else if Z.eqb (status_code response) 422 then
    Raised (unprocessable_entity response)
  else if Z.eqb (status_code response) 400 then
    Raised (bad_request response)
  else
    Raised (PulseChainUnknownException
              (str_of_int (status_code response) ++ ": " ++ text response)).

(** The request of [httpx.get(f"{self.base_url}/{path}", params=params,
    timeout=self.timeout)].  [get] catches [httpx.ReadTimeout] only: any
    other exception of the transport reaches the caller as it is. *)
Definition request_of (self : t) (path : string) (params : pyval) : Request :=
  mkRequest (base_url self ++ "/" ++ path) params (timeout self).

Definition get (self : t) (path : string) (params : pyval) : M pyval :=
  fun net log =>
    match httpx_get (request_of self path params) net log with
    | (Responds response, log') => (_check_result response, log')
    | (TimesOut ReadTimeout message, log') =>
        (Raised (PulseChainTimeoutException message), log')
    | (TimesOut kind message, log') => (Raised (HttpxTimeout kind message), log')
    | (Fails name, log') => (Raised (TransportError name), log')
    end.

End APIRequestHandler.

(* ------------------------------------------------------------------ *)
(** ** subclients/subpath_client.py *)

Module SubpathClient.

Record t : Type := mk {
  request_handler : APIRequestHandler.t;
  subpath : string
}.

(** [get(self, path=None, params=None)]; the callers build [path] with an
    f-string or leave it out. *)
Definition full_path (self : t) (path : option string) : string :=
  match path with
  | Some p => if negb (String.eqb p EmptyString) then subpath self ++ "/" ++ p
              else subpath self
  | None => subpath self
  end.

Definition get (self : t) (path : option string) (params : pyval) : M pyval :=
  response <- APIRequestHandler.get (request_handler self)
                (full_path self path) params ;;
  ret (match response with
       | VList _ => VDict [("items", response)]
       | _ => response
       end).

(** The full path when [path] is a caller's value handed on as it is:
    [f"{self.subpath}/{path}" if path else self.subpath]. *)
Definition full_path_of (container_str : pyval -> string) (self : t)
                        (path : pyval) : string :=
  if truthy path then subpath self ++ "/" ++ format_value container_str path
  else subpath self.

(** [get(self, path, params)] with such a path. *)
Definition get_at (container_str : pyval -> string) (self : t)
                  (path : pyval) (params : pyval) : M pyval :=
  response <- APIRequestHandler.get (request_handler self)
                (full_path_of container_str self path) params ;;
  ret (match response with
       | VList _ => VDict [("items", response)]
       | _ => response
       end).

End SubpathClient.

(* ------------------------------------------------------------------ *)
(** ** models.py *)

Definition is_dict (v : pyval) : bool :=
  match v with VDict _ => true | _ => false end.

(** [items: list[dict[str, Any]]] *)
Record BaseResponse : Type := mkBaseResponse { items : list pyval }.

(** [BaseResponse(items=v)]: the model validates its field. *)
Definition BaseResponse_new (v : pyval) : outcome BaseResponse :=
  match v with
  | VList l => if forallb is_dict l then Returned (mkBaseResponse l)
               else Raised ValidationError
  | _ => Raised ValidationError
  end.

(** [PaginatedResponse(BaseResponse)] adds
    [next_page_params: dict[str, Any] | None]. *)
Record PaginatedResponse : Type := mkPaginatedResponse {
  base : BaseResponse;
  next_page_params : pyval
}.

Definition PaginatedResponse_new (its : list pyval) (npp : pyval)
  : outcome PaginatedResponse :=
  try b <- BaseResponse_new (VList its) ;
  match npp with
  | VNone | VDict _ => Returned (mkPaginatedResponse b npp)
  | _ => Raised ValidationError
  end.

(* ------------------------------------------------------------------ *)
(** ** Calling a Python function *)

(** A signature: the parameters after [self], each with its default if it
    has one, and whether a [**kwargs] parameter ends it. *)
Record signature : Type := mkSig {
  sig_params : list (string * option pyval);
  sig_varkw : bool
}.

(** The local variables of a call: the named parameters and the dictionary
    collected by [**kwargs]. *)
Record frame : Type := mkFrame {
  locals : dict;
  kwargs_rest : dict
}.

(** Positional arguments fill the parameters from the left. *)
Fixpoint bind_positional (ps : list (string * option pyval)) (args : list pyval)
  : dict :=
  match ps, args with
  | (n, _) :: ps', a :: args' => (n, a) :: bind_positional ps' args'
  | _, _ => []
  end.

(** Keyword arguments, in call order: a keyword naming a parameter binds it
    unless it is bound already; any other keyword goes to [**kwargs], or is
    refused when the signature has none. *)
Fixpoint bind_keywords (names : list string) (varkw : bool) (kws : dict)
                       (f : frame) : outcome frame :=
  match kws with
  | [] => Returned f
  | (k, v) :: kws' =>
      if existsb (String.eqb k) names then
        match lookup k (locals f) with
        | Some _ => Raised (TypeError (MultipleValues k))
        | None =>
            bind_keywords names varkw kws'
              (mkFrame (locals f ++ [(k, v)])%list (kwargs_rest f))
        end
      else if varkw then
        bind_keywords names varkw kws'
          (mkFrame (locals f) (kwargs_rest f ++ [(k, v)])%list)
      else Raised (TypeError (UnexpectedKeyword k))
  end.

(** Parameters still unbound take their default; one without a default is
    a missing argument. *)
Fixpoint fill_defaults (ps : list (string * option pyval)) (loc : dict)
  : outcome dict :=
  match ps with
  | [] => Returned loc
  | (n, d) :: ps' =>
      match lookup n loc with
      | Some _ => fill_defaults ps' loc
      | None =>
          match d with
          | Some v => fill_defaults ps' (loc ++ [(n, v)])%list
          | None => Raised (TypeError (MissingArgument n))
          end
      end
  end.

(** The interpreter's argument binding, in its order: keywords, then the
    count of positional arguments, then the defaults. *)
Definition bind_args (s : signature) (args : list pyval) (kwargs : dict)
  : outcome frame :=
  try f <- bind_keywords (map fst (sig_params s)) (sig_varkw s) kwargs
             (mkFrame (bind_positional (sig_params s) args) []) ;
  if Nat.ltb (length (sig_params s)) (length args) then
    Raised (TypeError (TooManyPositional (length args)))
  else
    try loc <- fill_defaults (sig_params s) (locals f) ;
    Returned (mkFrame loc (kwargs_rest f)).

(** The value of a local variable. *)
Definition local (f : frame) (name : string) : pyval :=
  match lookup name (locals f) with
  | Some v => v
  | None => VNone
  end.

(** An endpoint method before decoration: its signature and its body, which
    returns the pair [(BaseResponse, next_page_params)]. *)
Record pyfunc : Type := mkFunc {
  func_sig : signature;
  func_body : SubpathClient.t -> frame -> M (BaseResponse * pyval)
}.

(** [func(self, *args, **kwargs)] *)
Definition call (func : pyfunc) (self : SubpathClient.t)
                (args : list pyval) (kwargs : dict) : M (BaseResponse * pyval) :=
  fr <- lift (bind_args (func_sig func) args kwargs) ;;
  func_body func self fr.

(* ------------------------------------------------------------------ *)
(** ** utils.py *)

Module Utils.

(** The arguments of the inner call [func(self, *args, params=params)],
    where [params = kwargs.pop("next_page_params", {})]. *)
Definition forwarded (args : list pyval) (kwargs : dict) : list pyval * dict :=
  (args, [("params", fst (pop "next_page_params" (VDict []) kwargs))]).

(** [wrapper(self, *args, **kwargs)] of the decorator [paginated]. *)
Definition paginated (func : pyfunc) (self : SubpathClient.t)
                     (args : list pyval) (kwargs : dict) : M PaginatedResponse :=
  ' (base_response, npp) <-
      call func self (fst (forwarded args kwargs)) (snd (forwarded args kwargs)) ;;
  lift (PaginatedResponse_new (items base_response) npp).

(** [add_decimal_sign(string, decimal_places=18)]:
    [string[:-decimal_places] + "." + string[-decimal_places:]] *)
Definition add_decimal_sign (string : String.string) (decimal_places : Z)
  : String.string :=
  slice_to string (- decimal_places) ++ "." ++ slice_from string (- decimal_places).

End Utils.

(** [return BaseResponse(items=response["items"]), response["next_page_params"]] *)
Definition page_of (response : pyval) : outcome (BaseResponse * pyval) :=
  try its <- getitem response "items" ;
  try b <- BaseResponse_new its ;
  try npp <- getitem response "next_page_params" ;
  Returned (b, npp).

(** [if cond: params[key] = validate(cond)] *)
Definition set_if (cond : pyval) (validate : pyval -> outcome pyval)
                  (key : string) (params : pyval) : outcome pyval :=
  if truthy cond then
    try x <- validate cond ; setitem params key x
  else Returned params.

Definition as_str (validate : pyval -> outcome string) (v : pyval) : outcome pyval :=
  try s <- validate v ; Returned (VStr s).

(** [BaseResponse(items=[response])] *)
Definition single_record (response : pyval) : outcome BaseResponse :=
  BaseResponse_new (VList [response]).

(** [BaseResponse(items=response["items"])] *)
Definition items_only (response : pyval) : outcome BaseResponse :=
  try its <- getitem response "items" ;
  BaseResponse_new its.

(** The endpoint methods of the shape
    [def m(self, x, params): response = self.get(f"{x}/suffix", params=params);
     return BaseResponse(items=response["items"]), response["next_page_params"]],
    undecorated; [default] is the default of [params] when it has one. *)
Definition page_method (container_str : pyval -> string) (x : string)
    (default : option pyval) (suffix : string) : pyfunc :=
  mkFunc (mkSig [(x, None); ("params", default)] false)
    (fun self fr =>
       response <- SubpathClient.get self
                     (Some (format_value container_str (local fr x)
                            ++ "/" ++ suffix))
                     (local fr "params") ;;
       lift (page_of response)).

(* ------------------------------------------------------------------ *)
(** ** subclients/blocks.py *)

Module BlocksClient.
Import Validators.

Definition init (request_handler : APIRequestHandler.t) : SubpathClient.t :=
  SubpathClient.mk request_handler "blocks".

(** [get_blocks(self, block_type=None, params=None)], undecorated. *)
Definition get_blocks_wrapped : pyfunc :=
  mkFunc (mkSig [("block_type", Some VNone); ("params", Some VNone)] false)
    (fun self fr =>
       let params := por (local fr "params") (VDict []) in
       params <- lift (set_if (local fr "block_type")
                              (as_str validate_block_type) "type" params) ;;
       response <- SubpathClient.get self None params ;;
       lift (page_of response)).

Definition get_blocks := Utils.paginated get_blocks_wrapped.

Section Formatting.
Variable container_str : pyval -> string.

(** [get_block_txns(self, block, params=None)], undecorated. *)
Definition get_block_txns_wrapped : pyfunc :=
  mkFunc (mkSig [("block", None); ("params", Some VNone)] false)
    (fun self fr =>
       response <- SubpathClient.get self
                     (Some (format_value container_str (local fr "block")
                            ++ "/transactions"))
                     (local fr "params") ;;
       lift (page_of response)).

Definition get_block_txns := Utils.paginated get_block_txns_wrapped.

(** [get_block_info(self, block)] *)
Definition get_block_info (self : SubpathClient.t) (block : pyval)
  : M BaseResponse :=
  response <- SubpathClient.get_at container_str self block VNone ;;
  lift (single_record response).

(** [get_block_withdrawals(self, block, params=None)], undecorated. *)
Definition get_block_withdrawals_wrapped : pyfunc :=
  page_method container_str "block" (Some VNone) "withdrawals".

Definition get_block_withdrawals := Utils.paginated get_block_withdrawals_wrapped.

End Formatting.
End BlocksClient.

(* ------------------------------------------------------------------ *)
(** ** subclients/transactions.py *)

Module TransactionsClient.
Import Validators.

Definition init (request_handler : APIRequestHandler.t) : SubpathClient.t :=
  SubpathClient.mk request_handler "transactions".

(** [get_transactions(self, txn_filter=None, txn_type=None, method=None,
    params=None)], undecorated.  The filters are looked at only under
    [if params:]. *)
Definition get_transactions_wrapped : pyfunc :=
  mkFunc (mkSig [("txn_filter", Some VNone); ("txn_type", Some VNone);
                 ("method", Some VNone); ("params", Some VNone)] false)
    (fun self fr =>
       let params := local fr "params" in
       params <- lift
         (if truthy params then
            try p1 <- set_if (local fr "txn_filter")
                        (as_str validate_txn_filter) "filter" params ;
            try p2 <- set_if (local fr "txn_type")
                        (as_str validate_txn_type) "tx_type" p1 ;
            set_if (local fr "method") (as_str validate_method) "method" p2
          else Returned params) ;;
       response <- SubpathClient.get self None params ;;
       lift (page_of response)).

Definition get_transactions := Utils.paginated get_transactions_wrapped.

Section Formatting.
Variable container_str : pyval -> string.

(** [get_transaction_info(self, transaction_hash)] *)
Definition get_transaction_info (self : SubpathClient.t)
    (transaction_hash : pyval) : M BaseResponse :=
  response <- SubpathClient.get_at container_str self transaction_hash VNone ;;
  lift (single_record response).

(** [get_token_transfers(self, transaction_hash, params)], undecorated. *)
Definition get_token_transfers_wrapped : pyfunc :=
  page_method container_str "transaction_hash" None "token-transfers".
Definition get_token_transfers := Utils.paginated get_token_transfers_wrapped.

(** [get_internal_transactions(self, transaction_hash, params)] *)
Definition get_internal_transactions_wrapped : pyfunc :=
  page_method container_str "transaction_hash" None "internal-transactions".
Definition get_internal_transactions :=
  Utils.paginated get_internal_transactions_wrapped.

(** [get_logs(self, transaction_hash, params)] *)
Definition get_logs_wrapped : pyfunc :=
  page_method container_str "transaction_hash" None "logs".
Definition get_logs := Utils.paginated get_logs_wrapped.

(** [get_raw_trace(self, transaction_hash)] *)
Definition get_raw_trace (self : SubpathClient.t) (transaction_hash : pyval)
  : M BaseResponse :=
  response <- SubpathClient.get self
                (Some (format_value container_str transaction_hash
                       ++ "/raw-trace")) VNone ;;
  lift (single_record response).

(** [get_state_changes(self, transaction_hash, params)] *)
Definition get_state_changes_wrapped : pyfunc :=
  page_method container_str "transaction_hash" None "state-changes".
Definition get_state_changes := Utils.paginated get_state_changes_wrapped.

End Formatting.
End TransactionsClient.

(* ------------------------------------------------------------------ *)
(** ** subclients/addresses.py *)

Module AddressesClient.
Import Validators.

Definition init (request_handler : APIRequestHandler.t) : SubpathClient.t :=
  SubpathClient.mk request_handler "addresses".

Section Formatting.
Variable container_str : pyval -> string.

(** [_get_address_txns(self, address, endpoint, params, txn_filter=None)]:
    returns [response["items"], response["next_page_params"]]. *)
Definition _get_address_txns (self : SubpathClient.t) (address : pyval)
    (endpoint : string) (params txn_filter : pyval) : M (pyval * pyval) :=
  params <- lift
    (match txn_filter with
     | VNone => Returned params
     | _ => try f <- validate_address_txn_filter txn_filter ;
            setitem params "filter" f
     end) ;;
  response <- SubpathClient.get self
                (Some (format_value container_str address ++ "/" ++ endpoint))
                params ;;
  its <- lift (getitem response "items") ;;
  npp <- lift (getitem response "next_page_params") ;;
  ret (its, npp).

(** The body shared by [get_transactions] and [get_internal_transactions]. *)
Definition address_txns_body (endpoint : string)
  : SubpathClient.t -> frame -> M (BaseResponse * pyval) :=
  fun self fr =>
    let params := fst (pop "params" (VDict []) (kwargs_rest fr)) in
    ' (its, npp) <- _get_address_txns self (local fr "address") endpoint
                      params (local fr "txn_filter") ;;
    b <- lift (BaseResponse_new its) ;;
    ret (b, npp).

(** [get_transactions(self, address, txn_filter=None, **kwargs)] *)
Definition get_transactions_wrapped : pyfunc :=
  mkFunc (mkSig [("address", None); ("txn_filter", Some VNone)] true)
    (address_txns_body "transactions").

Definition get_transactions := Utils.paginated get_transactions_wrapped.

(** [get_internal_transactions(self, address, txn_filter=None, **kwargs)] *)
Definition get_internal_transactions_wrapped : pyfunc :=
  mkFunc (mkSig [("address", None); ("txn_filter", Some VNone)] true)
    (address_txns_body "internal-transactions").

Definition get_internal_transactions :=
  Utils.paginated get_internal_transactions_wrapped.

(** [get_token_transfers(self, address, token_type=None, txn_filter=None,
    token=None, **kwargs)] *)
Definition get_token_transfers_wrapped : pyfunc :=
  mkFunc (mkSig [("address", None); ("token_type", Some VNone);
                 ("txn_filter", Some VNone); ("token", Some VNone)] true)
    (fun self fr =>
       let params := fst (pop "params" (VDict []) (kwargs_rest fr)) in
       params <- lift
         (try p1 <- set_if (local fr "token_type")
                      (as_str validate_token_type) "token_type" params ;
          try p2 <- set_if (local fr "txn_filter")
                      validate_address_txn_filter "filter" p1 ;
          set_if (local fr "token") (fun v => Returned v) "token" p2) ;;
       response <- SubpathClient.get self
                     (Some (format_value container_str (local fr "address")
                            ++ "/token-transfers"))
                     params ;;
       lift (page_of response)).

Definition get_token_transfers := Utils.paginated get_token_transfers_wrapped.

(** [get_tokens(self, address, token_type=None, **kwargs)] *)
Definition get_tokens_wrapped : pyfunc :=
  mkFunc (mkSig [("address", None); ("token_type", Some VNone)] true)
    (fun self fr =>
       let params := fst (pop "params" (VDict []) (kwargs_rest fr)) in
       params <- lift (set_if (local fr "token_type")
                              (as_str validate_token_type) "type" params) ;;
       response <- SubpathClient.get self
                     (Some (format_value container_str (local fr "address")
                            ++ "/tokens"))
                     params ;;
       lift (page_of response)).

Definition get_tokens := Utils.paginated get_tokens_wrapped.

(** [get_pls_holders_list(self)] *)
Definition get_pls_holders_list (self : SubpathClient.t) : M BaseResponse :=
  response <- SubpathClient.get self None VNone ;;
  lift (items_only response).

(** [get_info(self, address)] *)
Definition get_info (self : SubpathClient.t) (address : pyval) : M BaseResponse :=
  response <- SubpathClient.get_at container_str self address VNone ;;
  lift (single_record response).

(** [get_counters(self, address)] *)
Definition get_counters (self : SubpathClient.t) (address : pyval)
  : M BaseResponse :=
  response <- SubpathClient.get self
                (Some (format_value container_str address ++ "/counters")) VNone ;;
  lift (single_record response).

(** [get_logs(self, address)] *)
Definition get_logs (self : SubpathClient.t) (address : pyval) : M BaseResponse :=
  response <- SubpathClient.get self
                (Some (format_value container_str address ++ "/logs")) VNone ;;
  lift (items_only response).

(** [get_blocks_validated(self, address, params)], undecorated. *)
Definition get_blocks_validated_wrapped : pyfunc :=
  page_method container_str "address" None "blocks-validated".
Definition get_blocks_validated := Utils.paginated get_blocks_validated_wrapped.

(** [get_token_balances(self, address)] *)
Definition get_token_balances (self : SubpathClient.t) (address : pyval)
  : M BaseResponse :=
  response <- SubpathClient.get self
                (Some (format_value container_str address ++ "/token-balances"))
                VNone ;;
  lift (items_only response).

(** [get_coin_balance_history(self, address, params)] *)
Definition get_coin_balance_history_wrapped : pyfunc :=
  page_method container_str "address" None "coin-balance-history".
Definition get_coin_balance_history :=
  Utils.paginated get_coin_balance_history_wrapped.

(** [get_coin_balance_history_by_day(self, address)] *)
Definition get_coin_balance_history_by_day (self : SubpathClient.t)
    (address : pyval) : M BaseResponse :=
  response <- SubpathClient.get self
                (Some (format_value container_str address
                       ++ "/coin-balance-history-by-day")) VNone ;;
  lift (items_only response).

(** [get_withdrawals(self, address, params)] *)
Definition get_withdrawals_wrapped : pyfunc :=
  page_method container_str "address" None "withdrawals".
Definition get_withdrawals := Utils.paginated get_withdrawals_wrapped.

(** [get_nfts(self, address, params)] *)
Definition get_nfts_wrapped : pyfunc :=
  page_method container_str "address" None "nft".
Definition get_nfts := Utils.paginated get_nfts_wrapped.

(** [get_nft_collections(self, address, params)] *)
Definition get_nft_collections_wrapped : pyfunc :=
  page_method container_str "address" None "nft/collections".
Definition get_nft_collections := Utils.paginated get_nft_collections_wrapped.

End Formatting.
End AddressesClient.

(* ------------------------------------------------------------------ *)
(** ** subclients/tokens.py *)

Module TokensClient.
Import Validators.

Definition init (request_handler : APIRequestHandler.t) : SubpathClient.t :=
  SubpathClient.mk request_handler "tokens".

(** [get_tokens(self, name_query, token_type=None, params=None)] *)
Definition get_tokens_wrapped : pyfunc :=
  mkFunc (mkSig [("name_query", None); ("token_type", Some VNone);
                 ("params", Some VNone)] false)
    (fun self fr =>
       let params := por (local fr "params") (VDict []) in
       params <- lift
         (try p1 <- setitem params "q" (local fr "name_query") ;
          set_if (local fr "token_type") (as_str validate_token_type) "type" p1) ;;
       response <- SubpathClient.get self None params ;;
       lift (page_of response)).

Definition get_tokens := Utils.paginated get_tokens_wrapped.

Section Formatting.
Variable container_str : pyval -> string.

(** [get_info(self, address)] *)
Definition get_info (self : SubpathClient.t) (address : pyval) : M BaseResponse :=
  response <- SubpathClient.get_at container_str self address VNone ;;
  lift (single_record response).

(** [get_transfers(self, address, params)], undecorated. *)
Definition get_transfers_wrapped : pyfunc :=
  page_method container_str "address" None "transfers".
Definition get_transfers := Utils.paginated get_transfers_wrapped.

(** [get_holders(self, address, params)] *)
Definition get_holders_wrapped : pyfunc :=
  page_method container_str "address" None "holders".
Definition get_holders := Utils.paginated get_holders_wrapped.

(** [get_counters(self, address)] *)
Definition get_counters (self : SubpathClient.t) (address : pyval)
  : M BaseResponse :=
  response <- SubpathClient.get self
                (Some (format_value container_str address ++ "/counters")) VNone ;;
  lift (single_record response).

(** [get_nft_instances(self, address, params)] *)
Definition get_nft_instances_wrapped : pyfunc :=
  page_method container_str "address" None "instances".
Definition get_nft_instances := Utils.paginated get_nft_instances_wrapped.

End Formatting.
End TokensClient.

(* ------------------------------------------------------------------ *)
(** ** subclients/smart_contracts.py *)

Module SmartContractsClient.
Import Validators.

Definition init (request_handler : APIRequestHandler.t) : SubpathClient.t :=
  SubpathClient.mk request_handler "smart-contracts".

(** [get_smart_contracts(self, query, contract_filters=None)]: the
    signature has no [params] and no [**kwargs]. *)
Definition get_smart_contracts_wrapped : pyfunc :=
  mkFunc (mkSig [("query", None); ("contract_filters", Some VNone)] false)
    (fun self fr =>
       let params := VDict [("q", local fr "query")] in
       params <- lift (set_if (local fr "contract_filters")
                              (as_str validate_contract_filters) "filter" params) ;;
       response <- SubpathClient.get self None params ;;
       lift (page_of response)).

Definition get_smart_contracts := Utils.paginated get_smart_contracts_wrapped.

Section Formatting.
Variable container_str : pyval -> string.

(** [get_info(self, address)] *)
Definition get_info (self : SubpathClient.t) (address : pyval) : M BaseResponse :=
  response <- SubpathClient.get_at container_str self address VNone ;;
  lift (single_record response).

(** [get_counters(self)] *)
Definition get_counters (self : SubpathClient.t) : M BaseResponse :=
  response <- SubpathClient.get self (Some "counters") VNone ;;
  lift (single_record response).

(** [_get_methods(self, address, method_type, from_addr, is_custom_abi)];
    [method_type] is one of the four literals of the public methods. *)
Definition _get_methods (self : SubpathClient.t) (address : pyval)
    (method_type : string) (from_addr is_custom_abi : pyval) : M BaseResponse :=
  let params :=
    VDict [("is_custom_abi",
            VStr (if truthy is_custom_abi then "true" else "false"))] in
  params <- lift (set_if from_addr (fun v => Returned v) "from" params) ;;
  response <- SubpathClient.get self
                (Some (format_value container_str address
                       ++ "/methods-" ++ method_type)) params ;;
  lift (items_only response).

(** [get_read_methods(self, address, from_addr=None, is_custom_abi=False)]
    and its three siblings. *)
Definition get_read_methods self address from_addr is_custom_abi :=
  _get_methods self address "read" from_addr is_custom_abi.

Definition get_read_methods_proxy self address from_addr is_custom_abi :=
  _get_methods self address "read-proxy" from_addr is_custom_abi.

Definition get_write_methods self address from_addr is_custom_abi :=
  _get_methods self address "write" from_addr is_custom_abi.

Definition get_write_methods_proxy self address from_addr is_custom_abi :=
  _get_methods self address "write-proxy" from_addr is_custom_abi.

End Formatting.
End SmartContractsClient.

(* ------------------------------------------------------------------ *)
(** ** subclients/stats.py *)

Module StatsClient.

Definition init (request_handler : APIRequestHandler.t) : SubpathClient.t :=
  SubpathClient.mk request_handler "stats".

(** [get_stats(self)] *)
Definition get_stats (self : SubpathClient.t) : M BaseResponse :=
  response <- SubpathClient.get self None VNone ;;
  lift (single_record response).

(** [get_transactions_chart(self)]:
    [BaseResponse(items=[response["chart_data"]])] *)
Definition get_transactions_chart (self : SubpathClient.t) : M BaseResponse :=
  response <- SubpathClient.get self (Some "charts/transactions") VNone ;;
  lift (try chart <- getitem response "chart_data" ; single_record chart).

(** [get_market_chart(self)] *)
Definition get_market_chart (self : SubpathClient.t) : M BaseResponse :=
  response <- SubpathClient.get self (Some "charts/market") VNone ;;
  lift (single_record response).

End StatsClient.

(* ------------------------------------------------------------------ *)
(** ** subclients/search.py *)

Module SearchClient.

Definition init (request_handler : APIRequestHandler.t) : SubpathClient.t :=
  SubpathClient.mk request_handler "search".

(** [search(self, query, params)], undecorated: [params["q"] = query]. *)
Definition search_wrapped : pyfunc :=
  mkFunc (mkSig [("query", None); ("params", None)] false)
    (fun self fr =>
       params <- lift (setitem (local fr "params") "q" (local fr "query")) ;;
       response <- SubpathClient.get self None params ;;
       lift (page_of response)).

Definition search := Utils.paginated search_wrapped.

(** [check_redirect(self, query)] *)
Definition check_redirect (self : SubpathClient.t) (query : pyval)
  : M BaseResponse :=
  response <- SubpathClient.get self (Some "check-redirect")
                (VDict [("q", query)]) ;;
  lift (single_record response).

End SearchClient.

(* ------------------------------------------------------------------ *)
(** ** client.py *)

Module Client.

Definition BASE_URL := "https://api.scan.pulsechain.com/api/v2".

Record t : Type := mk {
  request_handler : APIRequestHandler.t;
  stats : SubpathClient.t;
  addresses : SubpathClient.t;
  transactions : SubpathClient.t;
  tokens : SubpathClient.t;
  blocks : SubpathClient.t;
  search : SubpathClient.t;
  smart_contracts : SubpathClient.t
}.

(** [Client()] *)
Definition init : t :=
  let rh := APIRequestHandler.init BASE_URL in
  mk rh
     (SubpathClient.mk rh "stats")
     (AddressesClient.init rh)
     (TransactionsClient.init rh)
     (TokensClient.init rh)
     (BlocksClient.init rh)
     (SubpathClient.mk rh "search")
     (SmartContractsClient.init rh).

(** [get_withdrawals(self, params=None)] *)
Definition get_withdrawals (self : t) (params : pyval) : M pyval :=
  APIRequestHandler.get (request_handler self) "withdrawals" params.

(** [get_json_rpc_url(self)] *)
Definition get_json_rpc_url (self : t) : M pyval :=
  APIRequestHandler.get (request_handler self) "config/json-rpc-url" VNone.

End Client.

(** The endpoint methods that validate a filter argument. *)
Inductive validating_method : Type :=
| Blocks_get_blocks
| Transactions_get_transactions
| Addresses_get_transactions
| Addresses_get_internal_transactions
| Addresses_get_token_transfers
| Addresses_get_tokens
| Tokens_get_tokens
| SmartContracts_get_smart_contracts.

(** The call of method [m] of the client with positional arguments [args]
    and keyword arguments [kwargs]. *)
Definition invoke (container_str : pyval -> string) (client : Client.t)
    (m : validating_method) (args : list pyval) (kwargs : dict)
  : M PaginatedResponse :=
  match m with
  | Blocks_get_blocks =>
      BlocksClient.get_blocks (Client.blocks client) args kwargs
  | Transactions_get_transactions =>
      TransactionsClient.get_transactions (Client.transactions client) args kwargs
  | Addresses_get_transactions =>
      AddressesClient.get_transactions container_str
        (Client.addresses client) args kwargs
  | Addresses_get_internal_transactions =>
      AddressesClient.get_internal_transactions container_str
        (Client.addresses client) args kwargs
  | Addresses_get_token_transfers =>
      AddressesClient.get_token_transfers container_str
        (Client.addresses client) args kwargs
  | Addresses_get_tokens =>
      AddressesClient.get_tokens container_str (Client.addresses client) args kwargs
  | Tokens_get_tokens =>
      TokensClient.get_tokens (Client.tokens client) args kwargs
  | SmartContracts_get_smart_contracts =>
      SmartContractsClient.get_smart_contracts
        (Client.smart_contracts client) args kwargs
  end.

(* ------------------------------------------------------------------ *)
(** ** Vocabulary of the properties *)

(** [s] is one of the allowed strings. *)
Definition allowed_in (allowed : list string) (s : string) : bool :=
  existsb (String.eqb s) allowed.

(** The raw text of the body [{"message": "bad"}]. *)
Definition bad_body_text : string :=
  let q := String (ascii_of_nat 34) EmptyString in
  "{" ++ q ++ "message" ++ q ++ ": " ++ q ++ "bad" ++ q ++ "}".

(** A transport on which every read times out. *)
Definition always_times_out : transport :=
  fun _ _ => TimesOut ReadTimeout "timed out".

(** A transport that cannot connect in time. *)
Definition connect_times_out : transport :=
  fun _ _ => TimesOut ConnectTimeout "timed out".

(** A transport that answers every request with the bare list [[{"a": 1}]]. *)
Definition answers_bare_list : transport :=
  fun _ _ => Responds (mkResponse 200 EmptyString (Some (VList [VDict [("a", VInt 1)]]))).

(** A transport that answers every request with an empty page. *)
Definition answers_empty_page : transport :=
  fun _ _ => Responds (mkResponse 200 EmptyString
               (Some (VDict [("items", VList []); ("next_page_params", VNone)]))).

(** A continuation that issues no request. *)
Definition pure_step {A B} (f : A -> M B) : Prop :=
  forall a net log, snd (f a net log) = log.

(** The outcome is the client-side parameter error. *)
Definition is_bad_param {A} (o : outcome A) : Prop :=
  exists msg, o = Raised (PulseChainBadParamException msg).

(** A computation that, when it ends in the parameter error, has issued no
    request. *)
Definition quiet {A} (m : M A) : Prop :=
  forall net log, is_bad_param (fst (m net log)) -> snd (m net log) = log.

(** A computation that never ends in the parameter error. *)
Definition never_bad_param {A} (m : M A) : Prop :=
  forall net log, ~ is_bad_param (fst (m net log)).

(** The endpoint methods built by [page_method]. *)
Inductive page_endpoint : Type :=
| Blocks_get_block_txns
| Blocks_get_block_withdrawals
| Transactions_get_token_transfers
| Transactions_get_internal_transactions
| Transactions_get_logs
| Transactions_get_state_changes
| Addresses_get_blocks_validated
| Addresses_get_coin_balance_history
| Addresses_get_withdrawals
| Addresses_get_nfts
| Addresses_get_nft_collections
| Tokens_get_transfers
| Tokens_get_holders
| Tokens_get_nft_instances.

(** The undecorated function of a page endpoint. *)
Definition page_func (container_str : pyval -> string) (e : page_endpoint)
  : pyfunc :=
  match e with
  | Blocks_get_block_txns => BlocksClient.get_block_txns_wrapped container_str
  | Blocks_get_block_withdrawals =>
      BlocksClient.get_block_withdrawals_wrapped container_str
  | Transactions_get_token_transfers =>
      TransactionsClient.get_token_transfers_wrapped container_str
  | Transactions_get_internal_transactions =>
      TransactionsClient.get_internal_transactions_wrapped container_str
  | Transactions_get_logs => TransactionsClient.get_logs_wrapped container_str
  | Transactions_get_state_changes =>
      TransactionsClient.get_state_changes_wrapped container_str
  | Addresses_get_blocks_validated =>
      AddressesClient.get_blocks_validated_wrapped container_str
  | Addresses_get_coin_balance_history =>
      AddressesClient.get_coin_balance_history_wrapped container_str
  | Addresses_get_withdrawals =>
      AddressesClient.get_withdrawals_wrapped container_str
  | Addresses_get_nfts => AddressesClient.get_nfts_wrapped container_str
  | Addresses_get_nft_collections =>
      AddressesClient.get_nft_collections_wrapped container_str
  | Tokens_get_transfers => TokensClient.get_transfers_wrapped container_str
  | Tokens_get_holders => TokensClient.get_holders_wrapped container_str
  | Tokens_get_nft_instances =>
      TokensClient.get_nft_instances_wrapped container_str
  end.

(** The sub-client a page endpoint belongs to. *)
Definition page_client (client : Client.t) (e : page_endpoint) : SubpathClient.t :=
  match e with
  | Blocks_get_block_txns | Blocks_get_block_withdrawals => Client.blocks client
  | Transactions_get_token_transfers | Transactions_get_internal_transactions
  | Transactions_get_logs | Transactions_get_state_changes =>
      Client.transactions client
  | Addresses_get_blocks_validated | Addresses_get_coin_balance_history
  | Addresses_get_withdrawals | Addresses_get_nfts
  | Addresses_get_nft_collections => Client.addresses client
  | Tokens_get_transfers | Tokens_get_holders | Tokens_get_nft_instances =>
      Client.tokens client
  end.

(** The name of its first parameter and the last segment of its route. *)
Definition page_arg (e : page_endpoint) : string :=
  match e with
  | Blocks_get_block_txns | Blocks_get_block_withdrawals => "block"
  | Transactions_get_token_transfers | Transactions_get_internal_transactions
  | Transactions_get_logs | Transactions_get_state_changes => "transaction_hash"
  | _ => "address"
  end.


(** The call of a page endpoint on the client. *)
Definition invoke_page (container_str : pyval -> string) (client : Client.t)
    (e : page_endpoint) (args : list pyval) (kwargs : dict)
  : M PaginatedResponse :=
  Utils.paginated (page_func container_str e) (page_client client e) args kwargs.

(** Every decorated endpoint method of the client. *)
Inductive endpoint : Type :=
| Validating (m : validating_method)
| Page (e : page_endpoint)
| Search_search.

Definition invoke_endpoint (container_str : pyval -> string) (client : Client.t)
    (e : endpoint) (args : list pyval) (kwargs : dict) : M PaginatedResponse :=
  match e with
  | Validating m => invoke container_str client m args kwargs
  | Page e' => invoke_page container_str client e' args kwargs
  | Search_search => SearchClient.search (Client.search client) args kwargs
  end.

(** The seed the wrapper takes from the keyword arguments. *)
Definition seed_of (kwargs : dict) : pyval :=
  fst (pop "next_page_params" (VDict []) kwargs).

(** What [SubpathClient.get] makes of the handler's value. *)
Definition envelope (response : pyval) : pyval :=
  match response with
  | VList _ => VDict [("items", response)]
  | _ => response
  end.

(** The list validators with their allowed sets and messages. *)
Definition list_validators
  : list (list string * string * (pyval -> outcome string)) :=
  [(Validators.valid_block_types,
    "block_type must be one of 'block', 'uncle', or 'reorg'",
    Validators.validate_block_type);
   (Validators.valid_txn_types,
    "txn_type must be one of 'token_transfer', 'contract_creation', 'contract_call', 'coin_transfer', or 'token_creation'",
    Validators.validate_txn_type);
   (Validators.valid_txn_filters,
    "txn_filter must be either 'pending' or 'validated'",
    Validators.validate_txn_filter);
   (Validators.valid_methods,
    "method must be either 'approve', 'transfer', 'multicall', 'mint', or 'commit'",
    Validators.validate_method);
   (Validators.valid_token_types,
    "token_type must be one of 'ERC-20', 'ERC-721', or 'ERC-1155'",
    Validators.validate_token_type);
   (Validators.valid_contract_filters,
    "contract_filter must be one of 'vyper', 'solidity' or 'yul'",
    Validators.validate_contract_filters)].

(** The methods that hand their argument on as the path and wrap the
    record received: [BaseResponse(items=[self.get(x)])]. *)
Definition record_methods (container_str : pyval -> string)
  : list (SubpathClient.t -> pyval -> M BaseResponse) :=
  [AddressesClient.get_info container_str;
   BlocksClient.get_block_info container_str;
   TokensClient.get_info container_str;
   TransactionsClient.get_transaction_info container_str;
   SmartContractsClient.get_info container_str].

(** A computation that issues at most one request, after those logged. *)
Definition at_most_one_request {A} (m : M A) : Prop :=
  forall net log,
    snd (m net log) = log \/ exists req, snd (m net log) = (log ++ [req])%list.

(** A transport on which every GET of the handler ends in the error [e]. *)
Definition every_get_raises (net : transport) (e : exn) : Prop :=
  forall self path params log,
    fst (APIRequestHandler.get self path params net log) = Raised e.

(** A computation that either fails before any request or ends in [e]. *)
Definition local_or_raises {A} (net : transport) (e : exn) (m : M A) : Prop :=
  forall log, snd (m net log) = log \/ fst (m net log) = Raised e.

(** A transport that answers every request with a 500. *)
Definition answers_500 : transport :=
  fun _ _ => Responds (mkResponse 500 "Internal Server Error" None).

(** A transport that answers every request with one page of two records
    and a cursor. *)
Definition answers_page : transport :=
  fun _ _ => Responds (mkResponse 200 EmptyString
    (Some (VDict [("items", VList [VDict [("hash", VStr "0x1")];
                                   VDict [("hash", VStr "0x2")]]);
                  ("next_page_params", VDict [("index", VInt 50)])]))).

(** Lists and dictionaries: the unhashable values. *)
Definition is_container (x : pyval) : bool :=
  match x with VList _ | VDict _ => true | _ => false end.

(** Strings. *)
Definition is_str (x : pyval) : bool :=
  match x with VStr _ => true | _ => false end.





(* ================================================================== *)
(** * Properties *)

(** ** Validators *)

Section ValidatorFacts.
Import Validators.

Lemma strings_of_map_VStr (l : list string) :
  strings_of (map VStr l) = Returned l.
Proof.
  induction l as [|s l IH]; simpl; [reflexivity|].
  rewrite IH. reflexivity.
Qed.

Lemma check_each_strings allowed msg (l : list string) :
  check_each allowed msg (map VStr l) =
  if forallb (allowed_in allowed) l then Returned tt
  else Raised (PulseChainBadParamException msg).
Proof.
  induction l as [|s l IH]; simpl; [reflexivity|].
  unfold allowed_in at 1.
  destruct (existsb (String.eqb s) allowed); simpl; [exact IH|reflexivity].
Qed.

(** A list validator on a list of strings: the joined list when every
    element is allowed, the parameter error otherwise. *)
Lemma validate_list_strings allowed msg sep (l : list string) :
  validate_list allowed msg sep (VList (map VStr l)) =
  if forallb (allowed_in allowed) l then Returned (String.concat sep l)
  else Raised (PulseChainBadParamException msg).
Proof.
  unfold validate_list. simpl. rewrite check_each_strings.
  destruct (forallb (allowed_in allowed) l); simpl; [|reflexivity].
  unfold join. simpl. rewrite strings_of_map_VStr. reflexivity.
Qed.

End ValidatorFacts.

(** C5 (as the code has it).  On a list of strings every list validator
    raises [PulseChainBadParamException] as soon as one element is outside
    its allowed set, and otherwise returns the elements joined: with a comma
    for [validate_block_type], [validate_txn_type], [validate_method] and
    [validate_token_type]; with a pipe that has one space on each side
    (the three characters [" | "]) for [validate_txn_filter] and
    [validate_contract_filters].  The single-string validator
    [validate_address_txn_filter] returns an allowed string unchanged and
    raises the same error on any other string. *)
Theorem validators_accept_and_join :
  (forall l, Validators.validate_block_type (VList (map VStr l)) =
     if forallb (allowed_in Validators.valid_block_types) l
     then Returned (String.concat "," l)
     else Raised (PulseChainBadParamException
                    "block_type must be one of 'block', 'uncle', or 'reorg'")) /\
  (forall l, Validators.validate_txn_type (VList (map VStr l)) =
     if forallb (allowed_in Validators.valid_txn_types) l
     then Returned (String.concat "," l)
     else Raised (PulseChainBadParamException
                    "txn_type must be one of 'token_transfer', 'contract_creation', 'contract_call', 'coin_transfer', or 'token_creation'")) /\
  (forall l, Validators.validate_method (VList (map VStr l)) =
     if forallb (allowed_in Validators.valid_methods) l
     then Returned (String.concat "," l)
     else Raised (PulseChainBadParamException
                    "method must be either 'approve', 'transfer', 'multicall', 'mint', or 'commit'")) /\
  (forall l, Validators.validate_token_type (VList (map VStr l)) =
     if forallb (allowed_in Validators.valid_token_types) l
     then Returned (String.concat "," l)
     else Raised (PulseChainBadParamException
                    "token_type must be one of 'ERC-20', 'ERC-721', or 'ERC-1155'")) /\
  (forall l, Validators.validate_txn_filter (VList (map VStr l)) =
     if forallb (allowed_in Validators.valid_txn_filters) l
     then Returned (String.concat " | " l)
     else Raised (PulseChainBadParamException
                    "txn_filter must be either 'pending' or 'validated'")) /\
  (forall l, Validators.validate_contract_filters (VList (map VStr l)) =
     if forallb (allowed_in Validators.valid_contract_filters) l
     then Returned (String.concat " | " l)
     else Raised (PulseChainBadParamException
                    "contract_filter must be one of 'vyper', 'solidity' or 'yul'")) /\
  (forall s, Validators.validate_address_txn_filter (VStr s) =
     if allowed_in Validators.valid_address_txn_filters s
     then Returned (VStr s)
     else Raised (PulseChainBadParamException
                    "txn_filter must be either 'to' or 'from'")).
Proof.
  repeat split; intros; try apply validate_list_strings.
  unfold Validators.validate_address_txn_filter, allowed_in. simpl.
  destruct (String.eqb s "to"), (String.eqb s "from"); reflexivity.
Qed.

(** C5 as stated fails: two allowed transaction filters are not joined with
    the pipe character alone, the result is ["pending | validated"]. *)
Lemma txn_filter_not_joined_with_bare_pipe :
  Validators.validate_txn_filter (VList [VStr "pending"; VStr "validated"])
    = Returned "pending | validated" /\
  Validators.validate_txn_filter (VList [VStr "pending"; VStr "validated"])
    <> Returned (String.concat "|" ["pending"; "validated"]).
Proof.
  split; [reflexivity|]. vm_compute. discriminate.
Qed.

(** ** Status-code dispatch *)

(** C6.  [_check_result] maps the status of a response: 200 returns the
    decoded JSON body; 400 raises the bad-request error carrying the body's
    [message] field; 422 raises the unprocessable-entity error carrying it
    likewise; 500 raises the server error whatever the body is; any other
    status raises the unknown error whose description is the status code,
    a colon and a space, and the raw body text. *)
Theorem check_result_status_mapping (response : Response) :
  (status_code response = 200%Z ->
   forall body, json response = Some body ->
     APIRequestHandler._check_result response = Returned body) /\
  (status_code response = 400%Z ->
   forall d m, json response = Some (VDict d) -> lookup "message" d = Some m ->
     APIRequestHandler._check_result response
       = Raised (PulseChainBadRequestException m)) /\
  (status_code response = 422%Z ->
   forall d m, json response = Some (VDict d) -> lookup "message" d = Some m ->
     APIRequestHandler._check_result response
       = Raised (PulseChainUnprocessableEntityException m)) /\
  (status_code response = 500%Z ->
     APIRequestHandler._check_result response
       = Raised (PulseChainServerError response)) /\
  (status_code response <> 200%Z -> status_code response <> 500%Z ->
   status_code response <> 422%Z -> status_code response <> 400%Z ->
     APIRequestHandler._check_result response
       = Raised (PulseChainUnknownException
                   (str_of_int (status_code response) ++ ": " ++ text response))).
Proof.
  unfold APIRequestHandler._check_result.
  repeat split.
  - intros Hs body Hb. rewrite Hs, Hb. reflexivity.
  - intros Hs d m Hb Hm. rewrite Hs. simpl.
    unfold APIRequestHandler.bad_request, APIRequestHandler.body_message.
    rewrite Hb. simpl. rewrite Hm. reflexivity.
  - intros Hs d m Hb Hm. rewrite Hs. simpl.
    unfold APIRequestHandler.unprocessable_entity, APIRequestHandler.body_message.
    rewrite Hb. simpl. rewrite Hm. reflexivity.
  - intros Hs. rewrite Hs. reflexivity.
  - intros H200 H500 H422 H400.
    apply Z.eqb_neq in H200, H500, H422, H400.
    rewrite H200, H500, H422, H400. reflexivity.
Qed.

(** The responses of the specification's examples: a 400 and a 422 with
    body [{"message": "bad"}], a 500 whose body is not JSON, a 503, and a
    200 with a JSON body. *)
Lemma check_result_status_mapping_witness :
  APIRequestHandler._check_result
    (mkResponse 400 bad_body_text (Some (VDict [("message", VStr "bad")])))
    = Raised (PulseChainBadRequestException (VStr "bad")) /\
  APIRequestHandler._check_result
    (mkResponse 422 bad_body_text (Some (VDict [("message", VStr "bad")])))
    = Raised (PulseChainUnprocessableEntityException (VStr "bad")) /\
  APIRequestHandler._check_result (mkResponse 500 "oops" None)
    = Raised (PulseChainServerError (mkResponse 500 "oops" None)) /\
  APIRequestHandler._check_result (mkResponse 503 "busy" None)
    = Raised (PulseChainUnknownException "503: busy") /\
  APIRequestHandler._check_result (mkResponse 200 "[]" (Some (VList [])))
    = Returned (VList []).
Proof.
  refine (conj _ (conj _ (conj _ (conj _ _)))).
  - apply (proj1 (proj2 (check_result_status_mapping
             (mkResponse 400 bad_body_text
                (Some (VDict [("message", VStr "bad")])))))
             eq_refl [("message", VStr "bad")] (VStr "bad") eq_refl eq_refl).
  - apply (proj1 (proj2 (proj2 (check_result_status_mapping
             (mkResponse 422 bad_body_text
                (Some (VDict [("message", VStr "bad")]))))))
             eq_refl [("message", VStr "bad")] (VStr "bad") eq_refl eq_refl).
  - apply (proj1 (proj2 (proj2 (proj2 (check_result_status_mapping
             (mkResponse 500 "oops" None))))) eq_refl).
  - apply (proj2 (proj2 (proj2 (proj2 (check_result_status_mapping
             (mkResponse 503 "busy" None)))))); simpl; lia.
  - apply (proj1 (check_result_status_mapping
             (mkResponse 200 "[]" (Some (VList [])))) eq_refl (VList []) eq_refl).
Defined.

(** ** The request handler and the sub-path client *)

(** A read timeout of the transport becomes the dedicated error, carrying
    the transport's message. *)
Lemma read_timeout_is_dedicated_error
    (self : APIRequestHandler.t) (path : string) (params : pyval)
    (net : transport) (log : list Request) (message : string) :
  net log (APIRequestHandler.request_of self path params)
    = TimesOut ReadTimeout message ->
  APIRequestHandler.get self path params net log
    = (Raised (PulseChainTimeoutException message),
       (log ++ [APIRequestHandler.request_of self path params])%list).
Proof.
  intros Hnet. unfold APIRequestHandler.get, httpx_get. rewrite Hnet.
  reflexivity.
Qed.

(** C9, on the code.  When the transport raises a timeout other than the
    read timeout (here [httpx.ConnectTimeout]), [APIRequestHandler.get] does
    not raise [PulseChainTimeoutException]: the caller receives the
    transport's own exception.  The read timeout alone is wrapped. *)
Theorem connect_timeout_is_not_wrapped
    (self : APIRequestHandler.t) (path : string) (params : pyval)
    (log : list Request) :
  APIRequestHandler.get self path params connect_times_out log
    = (Raised (HttpxTimeout ConnectTimeout "timed out"),
       (log ++ [APIRequestHandler.request_of self path params])%list) /\
  (forall message,
     fst (APIRequestHandler.get self path params connect_times_out log)
       <> Raised (PulseChainTimeoutException message)) /\
  APIRequestHandler.get self path params always_times_out log
    = (Raised (PulseChainTimeoutException "timed out"),
       (log ++ [APIRequestHandler.request_of self path params])%list).
Proof.
  refine (conj _ (conj _ _)).
  - reflexivity.
  - intros message. simpl. discriminate.
  - apply read_timeout_is_dedicated_error. reflexivity.
Qed.

(** C8.  When the request handler returns a bare JSON list,
    [SubpathClient.get] returns the mapping [{"items": <that list>}]; when it
    returns a mapping, that mapping is returned unchanged.  The log of
    requests is the handler's. *)
Theorem subpath_get_wraps_bare_list
    (self : SubpathClient.t) (path : option string) (params : pyval)
    (net : transport) (log log' : list Request) (response : pyval) :
  APIRequestHandler.get (SubpathClient.request_handler self)
    (SubpathClient.full_path self path) params net log
    = (Returned response, log') ->
  (forall l, response = VList l ->
     SubpathClient.get self path params net log
       = (Returned (VDict [("items", VList l)]), log')) /\
  (forall d, response = VDict d ->
     SubpathClient.get self path params net log = (Returned (VDict d), log')).
Proof.
  intros Hget. unfold SubpathClient.get, bind. rewrite Hget.
  split; intros x ->; reflexivity.
Qed.

Lemma subpath_get_wraps_bare_list_witness :
  SubpathClient.get (Client.stats Client.init) None VNone answers_bare_list []
    = (Returned (VDict [("items", VList [VDict [("a", VInt 1)]])]),
       [mkRequest "https://api.scan.pulsechain.com/api/v2/stats" VNone 60]).
Proof.
  exact (proj1 (subpath_get_wraps_bare_list (Client.stats Client.init) None VNone
                  answers_bare_list []
                  [mkRequest "https://api.scan.pulsechain.com/api/v2/stats" VNone 60]
                  (VList [VDict [("a", VInt 1)]]) eq_refl)
               [VDict [("a", VInt 1)]] eq_refl).
Defined.

(** ** The pagination wrapper *)



(** C4.  Every call of [SmartContractsClient.get_smart_contracts] raises a
    [TypeError] (unexpected keyword argument [params]) and leaves the log of
    requests as it was: no HTTP request is made. *)
Theorem get_smart_contracts_always_type_error
    (self : SubpathClient.t) (args : list pyval) (kwargs : dict)
    (net : transport) (log : list Request) :
  SmartContractsClient.get_smart_contracts self args kwargs net log
    = (Raised (TypeError (UnexpectedKeyword "params")), log).
Proof.
  reflexivity.
Qed.

(** *** How the log of requests evolves *)

Lemma pure_step_lift {A B} (g : A -> outcome B) : pure_step (fun a => lift (g a)).
Proof. intros a net log. reflexivity. Qed.

Lemma pure_step_finish :
  pure_step (fun x : BaseResponse * pyval =>
               match x with
               | (base_response, npp) =>
                   lift (PaginatedResponse_new (items base_response) npp)
               end).
Proof. intros [b npp] net log. reflexivity. Qed.

Lemma snd_bind_pure {A B} (m : M A) (f : A -> M B) net log :
  pure_step f -> snd (bind m f net log) = snd (m net log).
Proof.
  intros Hf. unfold bind.
  destruct (m net log) as [[a|e] log']; simpl; [apply Hf|reflexivity].
Qed.

Lemma snd_bind_returned {A B} (a : A) (f : A -> M B) net log :
  snd (bind (lift (Returned a)) f net log) = snd (f a net log).
Proof. reflexivity. Qed.

(** Every [get] of the request handler issues exactly its one request. *)
Lemma handler_get_log self path params net log :
  snd (APIRequestHandler.get self path params net log)
    = (log ++ [APIRequestHandler.request_of self path params])%list.
Proof.
  unfold APIRequestHandler.get, httpx_get.
  destruct (net log _) as [r|[| | |] m|n]; reflexivity.
Qed.

Lemma subpath_get_log self path params net log :
  snd (SubpathClient.get self path params net log)
    = (log ++ [APIRequestHandler.request_of (SubpathClient.request_handler self)
                 (SubpathClient.full_path self path) params])%list.
Proof.
  unfold SubpathClient.get. rewrite snd_bind_pure.
  - apply handler_get_log.
  - intros a net' log'. reflexivity.
Qed.

(** A method body that, once its parameters are ready, performs the GET and
    reads the page: its log is the log of the GET. *)
Lemma get_then_page_log self path params net log :
  snd ((response <- SubpathClient.get self path params ;;
        lift (page_of response)) net log)
    = (log ++ [APIRequestHandler.request_of (SubpathClient.request_handler self)
                 (SubpathClient.full_path self path) params])%list.
Proof.
  rewrite snd_bind_pure; [apply subpath_get_log | apply pure_step_lift].
Qed.


(** *** Concrete calls *)

(** Evaluate the closed prefix of a call (argument binding, validation) and
    reduce the goal to the log of the one GET that follows. *)
Ltac eval_bind_args :=
  lazymatch goal with
  | |- context [bind_args ?s ?a ?k] =>
      let v := eval vm_compute in (bind_args s a k) in
      change (bind_args s a k) with v
  end.

Ltac eval_lifted :=
  lazymatch goal with
  | |- context [bind (lift ?x) _] =>
      let v := eval vm_compute in x in
      change x with v
  end.

Ltac one_request :=
  unfold Utils.paginated;
  rewrite snd_bind_pure by apply pure_step_finish;
  unfold call; eval_bind_args; rewrite snd_bind_returned;
  cbv beta iota zeta delta [func_body BlocksClient.get_blocks_wrapped
                       TransactionsClient.get_transactions_wrapped];
  eval_lifted; rewrite snd_bind_returned;
  rewrite get_then_page_log; reflexivity.

(** C2, on the code.  [get_blocks(block_type=["block","uncle"])], the
    keyword form, issues its request with an empty parameter set: the query
    has no [type].  The positional form [get_blocks(["block","uncle"])]
    does send [type=block,uncle]. *)
Theorem get_blocks_keyword_block_type_is_dropped (net : transport)
                                                 (log : list Request) :
  snd (BlocksClient.get_blocks (Client.blocks Client.init) []
         [("block_type", VList [VStr "block"; VStr "uncle"])] net log)
    = (log ++ [mkRequest "https://api.scan.pulsechain.com/api/v2/blocks"
                 (VDict []) 60])%list /\
  snd (BlocksClient.get_blocks (Client.blocks Client.init)
         [VList [VStr "block"; VStr "uncle"]] [] net log)
    = (log ++ [mkRequest "https://api.scan.pulsechain.com/api/v2/blocks"
                 (VDict [("type", VStr "block,uncle")]) 60])%list.
Proof.
  split; unfold BlocksClient.get_blocks; one_request.
Qed.

(** C1, on the code.  [get_transactions(txn_filter=["pending"])], the
    keyword form, issues its request with an empty parameter set: the query
    has no [filter].  The positional form sends none either, because the
    filters are applied only when [params] is non-empty; and when a
    non-empty [next_page_params] accompanies two positional filter values,
    the [filter] sent is ["pending | validated"]. *)
Theorem get_transactions_keyword_filter_is_dropped (net : transport)
                                                   (log : list Request) :
  snd (TransactionsClient.get_transactions (Client.transactions Client.init) []
         [("txn_filter", VList [VStr "pending"])] net log)
    = (log ++ [mkRequest "https://api.scan.pulsechain.com/api/v2/transactions"
                 (VDict []) 60])%list /\
  snd (TransactionsClient.get_transactions (Client.transactions Client.init)
         [VList [VStr "pending"]] [] net log)
    = (log ++ [mkRequest "https://api.scan.pulsechain.com/api/v2/transactions"
                 (VDict []) 60])%list /\
  snd (TransactionsClient.get_transactions (Client.transactions Client.init)
         [VList [VStr "pending"; VStr "validated"]]
         [("next_page_params", VDict [("block_number", VInt 100)])] net log)
    = (log ++ [mkRequest "https://api.scan.pulsechain.com/api/v2/transactions"
                 (VDict [("block_number", VInt 100);
                         ("filter", VStr "pending | validated")]) 60])%list.
Proof.
  refine (conj _ (conj _ _)); unfold TransactionsClient.get_transactions;
    one_request.
Qed.

(** ** Validation precedes the request *)

Ltac no_bad_param :=
  unfold is_bad_param;
  repeat match goal with
         | |- context [match ?x with _ => _ end] => destruct x; simpl
         end;
  try (intros [? ?]; discriminate).

Lemma bad_param_retype {A B} (e : exn) :
  ~ is_bad_param (@Raised A e) -> ~ is_bad_param (@Raised B e).
Proof. intros H [msg E]. apply H. exists msg. congruence. Qed.

Lemma getitem_clean v k : ~ is_bad_param (getitem v k).
Proof. unfold getitem. no_bad_param. Qed.

Lemma BaseResponse_new_clean v : ~ is_bad_param (BaseResponse_new v).
Proof. unfold BaseResponse_new. no_bad_param. Qed.

Lemma PaginatedResponse_new_clean its npp :
  ~ is_bad_param (PaginatedResponse_new its npp).
Proof.
  unfold PaginatedResponse_new, obind.
  pose proof (BaseResponse_new_clean (VList its)) as H.
  destruct (BaseResponse_new (VList its)) as [b|e]; [|exact (bad_param_retype _ H)].
  no_bad_param.
Qed.

Lemma page_of_clean response : ~ is_bad_param (page_of response).
Proof.
  unfold page_of, obind.
  pose proof (getitem_clean response "items") as H1.
  destruct (getitem response "items") as [its|e]; [|exact (bad_param_retype _ H1)].
  pose proof (BaseResponse_new_clean its) as H2.
  destruct (BaseResponse_new its) as [b|e]; [|exact (bad_param_retype _ H2)].
  pose proof (getitem_clean response "next_page_params") as H3.
  destruct (getitem response "next_page_params") as [npp|e]; [|exact (bad_param_retype _ H3)].
  no_bad_param.
Qed.

Lemma check_result_clean response :
  ~ is_bad_param (APIRequestHandler._check_result response).
Proof.
  unfold APIRequestHandler._check_result, APIRequestHandler.bad_request,
    APIRequestHandler.unprocessable_entity, APIRequestHandler.body_message.
  pose proof (getitem_clean) as Hg. unfold is_bad_param in *.
  destruct (Z.eqb (status_code response) 200).
  { destruct (json response); intros [? ?]; discriminate. }
  destruct (Z.eqb (status_code response) 500).
  { intros [? ?]; discriminate. }
  destruct (Z.eqb (status_code response) 422).
  { destruct (json response) as [body|]; [|intros [? ?]; discriminate].
    specialize (Hg body "message").
    destruct (getitem body "message") as [m|e]; [intros [? ?]; discriminate|].
    intros [msg H]. apply Hg. exists msg. congruence. }
  destruct (Z.eqb (status_code response) 400).
  { destruct (json response) as [body|]; [|intros [? ?]; discriminate].
    specialize (Hg body "message").
    destruct (getitem body "message") as [m|e]; [intros [? ?]; discriminate|].
    intros [msg H]. apply Hg. exists msg. congruence. }
  intros [? ?]; discriminate.
Qed.

Lemma never_lift {A} (x : outcome A) : ~ is_bad_param x -> never_bad_param (lift x).
Proof. intros H net log. exact H. Qed.

Lemma never_ret {A} (a : A) : never_bad_param (ret a).
Proof. intros net log [msg H]. discriminate. Qed.

Lemma never_bind {A B} (m : M A) (f : A -> M B) :
  never_bad_param m -> (forall a, never_bad_param (f a)) ->
  never_bad_param (bind m f).
Proof.
  intros Hm Hf net log. unfold bind.
  specialize (Hm net log).
  destruct (m net log) as [[a|e] log']; simpl in *;
    [apply Hf|exact (bad_param_retype _ Hm)].
Qed.

Lemma never_handler_get self path params :
  never_bad_param (APIRequestHandler.get self path params).
Proof.
  intros net log. unfold APIRequestHandler.get, httpx_get.
  destruct (net log _) as [r|[| | |] m|n]; simpl;
    try apply check_result_clean; intros [? ?]; discriminate.
Qed.

Lemma never_subpath_get self path params :
  never_bad_param (SubpathClient.get self path params).
Proof.
  unfold SubpathClient.get. apply never_bind.
  - apply never_handler_get.
  - intros a. apply never_ret.
Qed.

Lemma never_get_then_page self path params :
  never_bad_param (response <- SubpathClient.get self path params ;;
                   lift (page_of response)).
Proof.
  apply never_bind; [apply never_subpath_get|].
  intros a. apply never_lift, page_of_clean.
Qed.

Lemma quiet_never {A} (m : M A) : never_bad_param m -> quiet m.
Proof. intros H net log Hbad. destruct (H net log Hbad). Qed.

Lemma quiet_lift_bind {A B} (x : outcome A) (f : A -> M B) :
  (forall a, quiet (f a)) -> quiet (bind (lift x) f).
Proof.
  intros Hf net log. unfold bind, lift.
  destruct x as [a|e]; simpl; [apply Hf|reflexivity].
Qed.

Lemma quiet_bind_never {A B} (m : M A) (f : A -> M B) :
  quiet m -> (forall a, never_bad_param (f a)) -> quiet (bind m f).
Proof.
  intros Hm Hf net log. unfold bind.
  specialize (Hm net log).
  destruct (m net log) as [[a|e] log'] eqn:E; simpl in *.
  - intros Hbad. destruct (Hf a net log' Hbad).
  - intros [msg Hbad]. apply Hm. exists msg. congruence.
Qed.

(** A body made of a pure preparation of the parameters, the GET and the
    reading of the page. *)
Lemma quiet_prepare_get_page self (pre : outcome pyval) path :
  quiet (params <- lift pre ;;
         response <- SubpathClient.get self path params ;;
         lift (page_of response)).
Proof.
  apply quiet_lift_bind. intros params.
  apply quiet_never, never_get_then_page.
Qed.

Lemma quiet_call func self args kwargs :
  (forall fr, quiet (func_body func self fr)) -> quiet (call func self args kwargs).
Proof. intros H. unfold call. apply quiet_lift_bind. exact H. Qed.

Lemma quiet_paginated func self args kwargs :
  (forall fr, quiet (func_body func self fr)) ->
  quiet (Utils.paginated func self args kwargs).
Proof.
  intros H. unfold Utils.paginated. apply quiet_bind_never.
  - apply quiet_call, H.
  - intros [b npp]. apply never_lift, PaginatedResponse_new_clean.
Qed.

Lemma quiet_get_address_txns cs self address endpoint params txn_filter :
  quiet (AddressesClient._get_address_txns cs self address endpoint params
           txn_filter).
Proof.
  unfold AddressesClient._get_address_txns.
  apply quiet_lift_bind. intros p. apply quiet_never.
  apply never_bind; [apply never_subpath_get|]. intros response.
  apply never_bind; [apply never_lift, getitem_clean|]. intros its.
  apply never_bind; [apply never_lift, getitem_clean|]. intros npp.
  apply never_ret.
Qed.

Lemma quiet_address_txns_body cs endpoint self fr :
  quiet (AddressesClient.address_txns_body cs endpoint self fr).
Proof.
  unfold AddressesClient.address_txns_body.
  apply quiet_bind_never; [apply quiet_get_address_txns|].
  intros [its npp].
  apply never_bind; [apply never_lift, BaseResponse_new_clean|].
  intros b. apply never_ret.
Qed.

(** C10.  Whenever a call of an endpoint method that validates a filter
    argument ends in [PulseChainBadParamException], the log of requests is
    what it was before the call: the call issued no HTTP request. *)
Theorem bad_param_issues_no_request
    (container_str : pyval -> string) (client : Client.t)
    (m : validating_method) (args : list pyval) (kwargs : dict)
    (net : transport) (log : list Request) (msg : string) :
  fst (invoke container_str client m args kwargs net log)
    = Raised (PulseChainBadParamException msg) ->
  snd (invoke container_str client m args kwargs net log) = log.
Proof.
  intros H.
  assert (Hq : quiet (invoke container_str client m args kwargs)).
  { destruct m; simpl; apply quiet_paginated; intros fr;
      try apply quiet_prepare_get_page; try apply quiet_address_txns_body. }
  apply Hq. exists msg. exact H.
Qed.

Lemma bad_param_issues_no_request_witness :
  snd (invoke (fun _ => EmptyString) Client.init Blocks_get_blocks
         [VList [VStr "block"; VStr "bogus"]] [] answers_empty_page [])
    = [].
Proof.
  exact (bad_param_issues_no_request (fun _ => EmptyString) Client.init Blocks_get_blocks
           [VList [VStr "block"; VStr "bogus"]] [] answers_empty_page []
           "block_type must be one of 'block', 'uncle', or 'reorg'" eq_refl).
Defined.

(* ================================================================== *)
(** * Further properties of the code *)

(** ** utils.add_decimal_sign *)

Lemma string_of_list_ascii_append (a b : list ascii) :
  string_of_list_ascii (a ++ b)%list
    = string_of_list_ascii a ++ string_of_list_ascii b.
Proof. induction a as [|c a IH]; simpl; [reflexivity|]. rewrite IH. reflexivity. Qed.

Lemma length_string_of_list_ascii (l : list ascii) :
  String.length (string_of_list_ascii l) = List.length l.
Proof. induction l as [|c l IH]; simpl; [reflexivity|]. rewrite IH. reflexivity. Qed.

Lemma length_list_ascii_of_string (s : string) :
  List.length (list_ascii_of_string s) = String.length s.
Proof. induction s as [|c s IH]; simpl; [reflexivity|]. rewrite IH. reflexivity. Qed.

Lemma string_length_append (a b : string) :
  String.length (a ++ b) = (String.length a + String.length b)%nat.
Proof. induction a as [|c a IH]; simpl; [reflexivity|]. rewrite IH. reflexivity. Qed.

(** The two slices at one bound make up the string. *)
Lemma slice_to_from (s : string) (k : Z) : slice_to s k ++ slice_from s k = s.
Proof.
  unfold slice_to, slice_from.
  rewrite <- string_of_list_ascii_append, firstn_skipn.
  apply string_of_list_ascii_of_string.
Qed.

Lemma slice_bound_le (len i : Z) :
  (0 <= len)%Z -> (Z.of_nat (slice_bound len i) <= len)%Z.
Proof. intros H. unfold slice_bound. destruct (Z.ltb_spec i 0); lia. Qed.

Lemma length_slice_to (s : string) (k : Z) :
  String.length (slice_to s k) = slice_bound (Z.of_nat (String.length s)) k.
Proof.
  unfold slice_to.
  rewrite length_string_of_list_ascii, length_firstn, length_list_ascii_of_string.
  pose proof (slice_bound_le (Z.of_nat (String.length s)) k). lia.
Qed.

Lemma length_slice_from (s : string) (k : Z) :
  String.length (slice_from s k)
    = (String.length s - slice_bound (Z.of_nat (String.length s)) k)%nat.
Proof.
  unfold slice_from.
  rewrite length_string_of_list_ascii, length_skipn, length_list_ascii_of_string.
  reflexivity.
Qed.

(** X1.  [add_decimal_sign] only inserts one dot: for every string and
    every [decimal_places], positive, zero or negative, the result is a
    prefix and a suffix of the string around the dot, the two together are
    the string, and the result is one character longer. *)
Theorem add_decimal_sign_inserts_one_dot (s : string) (decimal_places : Z) :
  exists p q,
    Utils.add_decimal_sign s decimal_places = p ++ "." ++ q /\
    p ++ q = s /\
    String.length (Utils.add_decimal_sign s decimal_places)
      = S (String.length s).
Proof.
  exists (slice_to s (- decimal_places)), (slice_from s (- decimal_places)).
  split; [reflexivity|]. split; [apply slice_to_from|].
  unfold Utils.add_decimal_sign.
  rewrite string_length_append. simpl.
  rewrite <- (slice_to_from s (- decimal_places)) at 3.
  rewrite string_length_append. lia.
Qed.

(** X2.  When the string has at least [decimal_places] characters and
    [decimal_places] is positive, exactly [decimal_places] characters follow
    the dot and the others precede it. *)
Theorem add_decimal_sign_fraction_digits (s : string) (decimal_places : Z) :
  (0 < decimal_places <= Z.of_nat (String.length s))%Z ->
  exists p q,
    Utils.add_decimal_sign s decimal_places = p ++ "." ++ q /\
    p ++ q = s /\
    Z.of_nat (String.length q) = decimal_places /\
    Z.of_nat (String.length p) = (Z.of_nat (String.length s) - decimal_places)%Z.
Proof.
  intros H.
  exists (slice_to s (- decimal_places)), (slice_from s (- decimal_places)).
  split; [reflexivity|]. split; [apply slice_to_from|].
  rewrite length_slice_to, length_slice_from.
  unfold slice_bound.
  destruct (Z.ltb_spec (- decimal_places) 0); lia.
Qed.

Lemma add_decimal_sign_fraction_digits_witness :
  exists p q,
    Utils.add_decimal_sign "1500000000000000000" 18 = p ++ "." ++ q /\
    p ++ q = "1500000000000000000" /\
    Z.of_nat (String.length q) = 18%Z /\
    Z.of_nat (String.length p)
      = (Z.of_nat (String.length "1500000000000000000") - 18)%Z.
Proof.
  apply (add_decimal_sign_fraction_digits "1500000000000000000" 18).
  simpl. lia.
Defined.

Lemma slice_to_nothing (s : string) (k : Z) :
  slice_bound (Z.of_nat (String.length s)) k = 0%nat ->
  slice_to s k = EmptyString /\ slice_from s k = s.
Proof.
  intros H. unfold slice_to, slice_from. rewrite H. simpl.
  split; [reflexivity|apply string_of_list_ascii_of_string].
Qed.

(** X3.  When [decimal_places] is zero, or is at least the length of the
    string, the dot goes in front of the whole string: no digit is put
    before it, and with zero places the dot does not go to the end. *)
Theorem add_decimal_sign_dot_in_front (s : string) (decimal_places : Z) :
  (decimal_places = 0 \/ Z.of_nat (String.length s) <= decimal_places)%Z ->
  Utils.add_decimal_sign s decimal_places = "." ++ s.
Proof.
  intros H. unfold Utils.add_decimal_sign.
  destruct (slice_to_nothing s (- decimal_places)) as [Hp Hq].
  { unfold slice_bound. destruct (Z.ltb_spec (- decimal_places) 0); lia. }
  rewrite Hp, Hq. reflexivity.
Qed.

Lemma add_decimal_sign_dot_in_front_witness :
  Utils.add_decimal_sign "42" 18 = ".42" /\
  Utils.add_decimal_sign "42" 0 = ".42".
Proof.
  split.
  - apply (add_decimal_sign_dot_in_front "42" 18). right. simpl. lia.
  - apply (add_decimal_sign_dot_in_front "42" 0). left. reflexivity.
Defined.

(** ** Validators on ill-shaped input *)

Lemma one_char_not_allowed (allowed : list string) (c : ascii) :
  forallb (fun a => Nat.leb 2 (String.length a)) allowed = true ->
  existsb (String.eqb (String c EmptyString)) allowed = false.
Proof.
  induction allowed as [|a allowed IH]; [reflexivity|].
  cbn [forallb existsb].
  intros H. apply andb_true_iff in H. destruct H as [Ha Hrest].
  rewrite (IH Hrest), orb_false_r.
  destruct a as [|x [|y r]]; simpl in Ha; try discriminate.
  simpl. destruct (Ascii.eqb c x); reflexivity.
Qed.

Lemma validate_list_on_string allowed msg sep (c : ascii) (rest : string) :
  forallb (fun a => Nat.leb 2 (String.length a)) allowed = true ->
  Validators.validate_list allowed msg sep (VStr (String c rest))
    = Raised (PulseChainBadParamException msg).
Proof.
  intros H. unfold Validators.validate_list, iterate.
  cbn [obind list_ascii_of_string map Validators.check_each not_in].
  rewrite (one_char_not_allowed allowed c H). reflexivity.
Qed.

(** X4.  A list validator given a bare non-empty string instead of a list
    (as in [validate_block_type("block")]) iterates over its characters and
    raises [PulseChainBadParamException], even when the string is itself an
    allowed value. *)
Theorem list_validators_reject_bare_string
    (allowed : list string) (msg : string) (validate : pyval -> outcome string)
    (c : ascii) (rest : string) :
  In (allowed, msg, validate) list_validators ->
  validate (VStr (String c rest)) = Raised (PulseChainBadParamException msg).
Proof.
  unfold list_validators. simpl.
  intros [H|[H|[H|[H|[H|[H|[]]]]]]]; inversion H; subst;
    apply validate_list_on_string; reflexivity.
Qed.

Lemma list_validators_reject_bare_string_witness :
  Validators.validate_block_type (VStr "block")
    = Raised (PulseChainBadParamException
                "block_type must be one of 'block', 'uncle', or 'reorg'").
Proof.
  apply (list_validators_reject_bare_string Validators.valid_block_types
           "block_type must be one of 'block', 'uncle', or 'reorg'"
           Validators.validate_block_type "b"%char "lock").
  left. reflexivity.
Defined.

Lemma check_each_allowed_prefix allowed msg (l : list string) (rest : list pyval) :
  forallb (allowed_in allowed) l = true ->
  Validators.check_each allowed msg (map VStr l ++ rest)%list
    = Validators.check_each allowed msg rest.
Proof.
  induction l as [|s l IH]; simpl; [reflexivity|].
  intros H. apply andb_true_iff in H. destruct H as [Hs Hl].
  unfold allowed_in in Hs. rewrite Hs. simpl. apply IH, Hl.
Qed.

(** X5.  In the list given to a list validator, the first element that is
    not an allowed string decides: a value that is no string ([None], a
    number, a boolean) is refused with [PulseChainBadParamException] like a
    disallowed string, while a list or a dictionary makes the membership
    test itself fail with [TypeError] (unhashable). *)
Theorem list_validators_first_offender
    (allowed : list string) (msg : string) (validate : pyval -> outcome string)
    (l : list string) (x : pyval) (rest : list pyval) :
  In (allowed, msg, validate) list_validators ->
  forallb (allowed_in allowed) l = true ->
  is_str x = false ->
  validate (VList (map VStr l ++ x :: rest)%list)
    = if is_container x then Raised (TypeError Unhashable)
      else Raised (PulseChainBadParamException msg).
Proof.
  intros Hin Hl Hx.
  assert (Hgen : forall sep,
    Validators.validate_list allowed msg sep (VList (map VStr l ++ x :: rest)%list)
      = if is_container x then Raised (TypeError Unhashable)
        else Raised (PulseChainBadParamException msg)).
  { intros sep. unfold Validators.validate_list. simpl.
    rewrite check_each_allowed_prefix by exact Hl.
    destruct x; try discriminate; reflexivity. }
  unfold list_validators in Hin. simpl in Hin.
  destruct Hin as [H|[H|[H|[H|[H|[H|[]]]]]]]; inversion H; subst; apply Hgen.
Qed.

Lemma list_validators_first_offender_witness :
  Validators.validate_token_type
    (VList [VStr "ERC-20"; VList [VStr "ERC-721"]; VStr "bogus"])
    = Raised (TypeError Unhashable) /\
  Validators.validate_token_type (VList [VStr "ERC-20"; VNone])
    = Raised (PulseChainBadParamException
                "token_type must be one of 'ERC-20', 'ERC-721', or 'ERC-1155'").
Proof.
  split.
  - apply (list_validators_first_offender Validators.valid_token_types
             "token_type must be one of 'ERC-20', 'ERC-721', or 'ERC-1155'"
             Validators.validate_token_type ["ERC-20"]
             (VList [VStr "ERC-721"]) [VStr "bogus"]);
      [right; right; right; right; left; reflexivity | reflexivity | reflexivity].
  - apply (list_validators_first_offender Validators.valid_token_types
             "token_type must be one of 'ERC-20', 'ERC-721', or 'ERC-1155'"
             Validators.validate_token_type ["ERC-20"] VNone []);
      [right; right; right; right; left; reflexivity | reflexivity | reflexivity].
Defined.

(** ** The request handler on malformed answers *)

(** X6.  The errors of [_check_result] that are not API errors: a 200
    whose body does not decode raises the decoder's error; a 400 or 422
    whose body does not decode raises it too; a 400 or 422 whose body is a
    mapping without [message] raises [KeyError("message")], and one whose
    body is not a mapping raises [TypeError]: in these cases the caller
    gets neither the bad-request nor the unprocessable-entity error. *)
Theorem check_result_malformed_body (response : Response) :
  (status_code response = 200%Z \/ status_code response = 400%Z \/
   status_code response = 422%Z ->
   json response = None ->
   APIRequestHandler._check_result response = Raised JSONDecodeError) /\
  (status_code response = 400%Z \/ status_code response = 422%Z ->
   forall d, json response = Some (VDict d) -> lookup "message" d = None ->
   APIRequestHandler._check_result response = Raised (KeyError "message")) /\
  (status_code response = 400%Z \/ status_code response = 422%Z ->
   forall body, json response = Some body -> is_dict body = false ->
   APIRequestHandler._check_result response = Raised (TypeError BadSubscript)).
Proof.
  unfold APIRequestHandler._check_result, APIRequestHandler.bad_request,
    APIRequestHandler.unprocessable_entity, APIRequestHandler.body_message.
  refine (conj _ (conj _ _)).
  - intros [Hs|[Hs|Hs]] Hj; rewrite Hs, Hj; reflexivity.
  - intros [Hs|Hs] d Hj Hm; rewrite Hs, Hj; simpl; rewrite Hm; reflexivity.
  - intros [Hs|Hs] body Hj Hb; rewrite Hs, Hj; simpl;
      destruct body; try discriminate; reflexivity.
Qed.

Lemma check_result_malformed_body_witness :
  APIRequestHandler._check_result (mkResponse 400 "Bad Request" None)
    = Raised JSONDecodeError /\
  APIRequestHandler._check_result
    (mkResponse 422 "{}" (Some (VDict [("errors", VList [])])))
    = Raised (KeyError "message") /\
  APIRequestHandler._check_result (mkResponse 400 "[]" (Some (VList [])))
    = Raised (TypeError BadSubscript).
Proof.
  refine (conj _ (conj _ _)).
  - exact (proj1 (check_result_malformed_body (mkResponse 400 "Bad Request" None))
             (or_intror (or_introl eq_refl)) eq_refl).
  - exact (proj1 (proj2 (check_result_malformed_body
             (mkResponse 422 "{}" (Some (VDict [("errors", VList [])])))))
             (or_intror eq_refl) [("errors", VList [])] eq_refl eq_refl).
  - exact (proj2 (proj2 (check_result_malformed_body
             (mkResponse 400 "[]" (Some (VList [])))))
             (or_introl eq_refl) (VList []) eq_refl eq_refl).
Defined.

(** ** One round trip per call *)

Lemma one_request_get_then {A} self path params (g : pyval -> outcome A) net log :
  snd ((response <- SubpathClient.get self path params ;; lift (g response))
         net log)
    = (log ++ [APIRequestHandler.request_of (SubpathClient.request_handler self)
                 (SubpathClient.full_path self path) params])%list.
Proof.
  rewrite snd_bind_pure; [apply subpath_get_log | apply pure_step_lift].
Qed.

Lemma get_at_log cs self path params net log :
  snd (SubpathClient.get_at cs self path params net log)
    = (log ++ [APIRequestHandler.request_of (SubpathClient.request_handler self)
                 (SubpathClient.full_path_of cs self path) params])%list.
Proof.
  unfold SubpathClient.get_at. rewrite snd_bind_pure.
  - apply handler_get_log.
  - intros a net' log'. reflexivity.
Qed.

Lemma one_request_get_at_then {A} cs self path params (g : pyval -> outcome A)
    net log :
  snd ((response <- SubpathClient.get_at cs self path params ;; lift (g response))
         net log)
    = (log ++ [APIRequestHandler.request_of (SubpathClient.request_handler self)
                 (SubpathClient.full_path_of cs self path) params])%list.
Proof.
  rewrite snd_bind_pure; [apply get_at_log | apply pure_step_lift].
Qed.

(** X7.  Every endpoint method that is not paginated performs exactly one
    GET per call, whatever its arguments and whatever the outcome (a
    response, an API error, a timeout): the request is appended to those
    issued before, and nothing is retried. *)
Theorem plain_methods_issue_exactly_one_request
    (cs : pyval -> string) (self : SubpathClient.t) (client : Client.t)
    (x from_addr is_custom_abi : pyval) (net : transport) (log : list Request) :
  let once {A} (m : M A) := exists req, snd (m net log) = (log ++ [req])%list in
  once (AddressesClient.get_pls_holders_list self) /\
  once (AddressesClient.get_info cs self x) /\
  once (AddressesClient.get_counters cs self x) /\
  once (AddressesClient.get_logs cs self x) /\
  once (AddressesClient.get_token_balances cs self x) /\
  once (AddressesClient.get_coin_balance_history_by_day cs self x) /\
  once (BlocksClient.get_block_info cs self x) /\
  once (TokensClient.get_info cs self x) /\
  once (TokensClient.get_counters cs self x) /\
  once (TransactionsClient.get_transaction_info cs self x) /\
  once (TransactionsClient.get_raw_trace cs self x) /\
  once (SmartContractsClient.get_info cs self x) /\
  once (SmartContractsClient.get_counters self) /\
  once (SmartContractsClient.get_read_methods cs self x from_addr is_custom_abi) /\
  once (SmartContractsClient.get_read_methods_proxy cs self x from_addr
          is_custom_abi) /\
  once (SmartContractsClient.get_write_methods cs self x from_addr is_custom_abi) /\
  once (SmartContractsClient.get_write_methods_proxy cs self x from_addr
          is_custom_abi) /\
  once (StatsClient.get_stats self) /\
  once (StatsClient.get_transactions_chart self) /\
  once (StatsClient.get_market_chart self) /\
  once (SearchClient.check_redirect self x) /\
  once (Client.get_withdrawals client x) /\
  once (Client.get_json_rpc_url client).
Proof.
  assert (Hm : forall mt, exists req,
    snd (SmartContractsClient._get_methods cs self x mt from_addr is_custom_abi
           net log) = (log ++ [req])%list).
  { intros mt. unfold SmartContractsClient._get_methods, set_if.
    destruct (truthy from_addr); simpl obind; unfold setitem;
      rewrite snd_bind_returned; eexists; apply one_request_get_then. }
  cbv zeta.
  repeat match goal with |- _ /\ _ => split end;
    try (eexists; apply one_request_get_then);
    try (eexists; apply one_request_get_at_then);
    try (eexists; apply handler_get_log);
    try apply Hm.
Qed.

(** ** The page endpoints *)

Lemma path_with_slash_not_empty (a b : string) :
  String.eqb (a ++ "/" ++ b) EmptyString = false.
Proof. destruct a; reflexivity. Qed.

Lemma full_path_segment self (a b : string) :
  SubpathClient.full_path self (Some (a ++ "/" ++ b))
    = SubpathClient.subpath self ++ "/" ++ a ++ "/" ++ b.
Proof.
  unfold SubpathClient.full_path. rewrite path_with_slash_not_empty. reflexivity.
Qed.


Lemma subpath_get_200 self path params net log r body :
  net log (APIRequestHandler.request_of (SubpathClient.request_handler self)
             (SubpathClient.full_path self path) params) = Responds r ->
  status_code r = 200%Z -> json r = Some body ->
  SubpathClient.get self path params net log
    = (Returned (envelope body),
       (log ++ [APIRequestHandler.request_of (SubpathClient.request_handler self)
                  (SubpathClient.full_path self path) params])%list).
Proof.
  intros Hnet Hs Hj.
  unfold SubpathClient.get, bind, APIRequestHandler.get, httpx_get.
  rewrite Hnet. unfold APIRequestHandler._check_result. rewrite Hs, Hj.
  reflexivity.
Qed.








(** ** Calls with the wrong arguments fail before any request *)

(** X11.  A paginated method that declares [params] cannot be given it
    positionally: the wrapper always adds [params] by keyword, so a call
    that fills the [params] position raises [TypeError] (multiple values
    for [params]) and issues no request.  This holds for the page
    endpoints, [get_blocks], [TransactionsClient.get_transactions],
    [TokensClient.get_tokens] and [search], whatever else is passed. *)
Theorem positional_params_is_type_error
    (cs : pyval -> string) (client : Client.t) (self : SubpathClient.t)
    (a b c d : pyval) (rest : list pyval) (kwargs : dict)
    (net : transport) (log : list Request) :
  (forall e, invoke_page cs client e (a :: b :: rest) kwargs net log
             = (Raised (TypeError (MultipleValues "params")), log)) /\
  BlocksClient.get_blocks self (a :: b :: rest) kwargs net log
    = (Raised (TypeError (MultipleValues "params")), log) /\
  TransactionsClient.get_transactions self (a :: b :: c :: d :: rest) kwargs
    net log
    = (Raised (TypeError (MultipleValues "params")), log) /\
  TokensClient.get_tokens self (a :: b :: c :: rest) kwargs net log
    = (Raised (TypeError (MultipleValues "params")), log) /\
  SearchClient.search self (a :: b :: rest) kwargs net log
    = (Raised (TypeError (MultipleValues "params")), log).
Proof.
  refine (conj _ (conj _ (conj _ (conj _ _)))); try reflexivity.
  intros e. destruct e; reflexivity.
Qed.

(** X12.  A paginated method called without its required first argument
    raises [TypeError] (missing argument) and issues no request: the page
    endpoints, the address endpoints, [TokensClient.get_tokens] and
    [search]. *)
Theorem missing_argument_is_type_error
    (cs : pyval -> string) (client : Client.t) (self : SubpathClient.t)
    (kwargs : dict) (net : transport) (log : list Request) :
  (forall e, invoke_page cs client e [] kwargs net log
             = (Raised (TypeError (MissingArgument (page_arg e))), log)) /\
  AddressesClient.get_transactions cs self [] kwargs net log
    = (Raised (TypeError (MissingArgument "address")), log) /\
  AddressesClient.get_internal_transactions cs self [] kwargs net log
    = (Raised (TypeError (MissingArgument "address")), log) /\
  AddressesClient.get_token_transfers cs self [] kwargs net log
    = (Raised (TypeError (MissingArgument "address")), log) /\
  AddressesClient.get_tokens cs self [] kwargs net log
    = (Raised (TypeError (MissingArgument "address")), log) /\
  TokensClient.get_tokens self [] kwargs net log
    = (Raised (TypeError (MissingArgument "name_query")), log) /\
  SearchClient.search self [] kwargs net log
    = (Raised (TypeError (MissingArgument "query")), log).
Proof.
  repeat match goal with |- _ /\ _ => split end; try reflexivity.
  intros e. destruct e; reflexivity.
Qed.

(** X13.  The address endpoints take [address] and their filters
    positionally and collect [params] through [**kwargs]: one positional
    argument more than the signature names raises [TypeError] (too many
    positional arguments) and issues no request. *)
Theorem address_endpoints_too_many_positional
    (cs : pyval -> string) (self : SubpathClient.t)
    (a b c d e : pyval) (rest : list pyval) (kwargs : dict)
    (net : transport) (log : list Request) :
  AddressesClient.get_transactions cs self (a :: b :: c :: rest) kwargs net log
    = (Raised (TypeError (TooManyPositional (3 + length rest))), log) /\
  AddressesClient.get_internal_transactions cs self (a :: b :: c :: rest)
    kwargs net log
    = (Raised (TypeError (TooManyPositional (3 + length rest))), log) /\
  AddressesClient.get_tokens cs self (a :: b :: c :: rest) kwargs net log
    = (Raised (TypeError (TooManyPositional (3 + length rest))), log) /\
  AddressesClient.get_token_transfers cs self (a :: b :: c :: d :: e :: rest)
    kwargs net log
    = (Raised (TypeError (TooManyPositional (5 + length rest))), log).
Proof.
  repeat match goal with |- _ /\ _ => split end; reflexivity.
Qed.

(** ** The cursor of the last page *)

(** X14.  [get_blocks] and [TokensClient.get_tokens] replace a falsy seed
    by the empty dictionary ([params or {}]): a call given
    [next_page_params=None], the cursor a last page returns, behaves in
    every respect like the call without the keyword, that is, it asks for
    the first page again. *)
Theorem none_cursor_restarts_from_first_page
    (self : SubpathClient.t) (args : list pyval)
    (net : transport) (log : list Request) :
  BlocksClient.get_blocks self args [("next_page_params", VNone)] net log
    = BlocksClient.get_blocks self args [] net log /\
  TokensClient.get_tokens self args [("next_page_params", VNone)] net log
    = TokensClient.get_tokens self args [] net log.
Proof.
  split.
  - destruct args as [|a [|b rest]]; reflexivity.
  - destruct args as [|a [|b [|c rest]]]; reflexivity.
Qed.

(** ** At most one request, and the handler's errors as they are *)

Ltac pure_cont :=
  let a := fresh "a" in let net := fresh "net" in let log := fresh "log" in
  intros a net log; try destruct a as [? ?]; unfold bind, lift, ret;
  repeat match goal with
         | |- context [match ?x with _ => _ end] => destruct x; simpl
         end;
  reflexivity.

Lemma amo_lift_bind {A B} (x : outcome A) (f : A -> M B) :
  (forall a, at_most_one_request (f a)) -> at_most_one_request (bind (lift x) f).
Proof.
  intros Hf net log. unfold bind, lift.
  destruct x as [a|e]; simpl; [apply Hf|left; reflexivity].
Qed.

Lemma amo_bind_pure {A B} (m : M A) (f : A -> M B) :
  at_most_one_request m -> pure_step f -> at_most_one_request (bind m f).
Proof.
  intros Hm Hf net log. rewrite snd_bind_pure by exact Hf. apply Hm.
Qed.

Lemma amo_subpath_get self path params :
  at_most_one_request (SubpathClient.get self path params).
Proof. intros net log. right. eexists. apply subpath_get_log. Qed.

Lemma amo_get_then {A} self path params (g : pyval -> outcome A) :
  at_most_one_request (response <- SubpathClient.get self path params ;;
                       lift (g response)).
Proof. intros net log. right. eexists. apply one_request_get_then. Qed.

Lemma amo_prepare_get_page self (pre : outcome pyval) path :
  at_most_one_request (params <- lift pre ;;
                       response <- SubpathClient.get self path params ;;
                       lift (page_of response)).
Proof. apply amo_lift_bind. intros params. apply amo_get_then. Qed.

Lemma amo_paginated func self args kwargs :
  (forall fr, at_most_one_request (func_body func self fr)) ->
  at_most_one_request (Utils.paginated func self args kwargs).
Proof.
  intros H. unfold Utils.paginated.
  apply amo_bind_pure; [|apply pure_step_finish].
  unfold call. apply amo_lift_bind. exact H.
Qed.

Lemma amo_address_txns_body cs endpoint self fr :
  at_most_one_request (AddressesClient.address_txns_body cs endpoint self fr).
Proof.
  unfold AddressesClient.address_txns_body.
  apply amo_bind_pure; [|pure_cont].
  unfold AddressesClient._get_address_txns.
  apply amo_lift_bind. intros p.
  apply amo_bind_pure; [apply amo_subpath_get|pure_cont].
Qed.

(** X15.  Every decorated endpoint method of the client (the eight that
    validate, the fourteen page endpoints and [search]) issues at most one
    request per call and leaves the earlier log in place: no call retries
    or fans out. *)
Theorem endpoints_issue_at_most_one_request
    (cs : pyval -> string) (client : Client.t) (e : endpoint)
    (args : list pyval) (kwargs : dict) :
  at_most_one_request (invoke_endpoint cs client e args kwargs).
Proof.
  destruct e as [m|e|]; simpl.
  - destruct m; simpl; apply amo_paginated; intros fr;
      try apply amo_prepare_get_page; try apply amo_address_txns_body.
  - unfold invoke_page. apply amo_paginated. intros fr.
    destruct e; apply amo_get_then.
  - apply amo_paginated. intros fr. apply amo_prepare_get_page.
Qed.

Lemma fst_bind_raised {A B} (m : M A) (f : A -> M B) net log e :
  fst (m net log) = Raised e -> fst (bind m f net log) = Raised e.
Proof.
  unfold bind. destruct (m net log) as [[a|e'] log']; simpl;
    [discriminate|]. intros H. injection H as ->. reflexivity.
Qed.

Lemma lor_lift_bind {A B} net e (x : outcome A) (f : A -> M B) :
  (forall a, local_or_raises net e (f a)) ->
  local_or_raises net e (bind (lift x) f).
Proof.
  intros Hf log. unfold bind, lift.
  destruct x as [a|e']; simpl; [apply Hf|left; reflexivity].
Qed.

Lemma lor_bind_pure {A B} net e (m : M A) (f : A -> M B) :
  local_or_raises net e m -> pure_step f -> local_or_raises net e (bind m f).
Proof.
  intros Hm Hf log. destruct (Hm log) as [H|H].
  - left. rewrite snd_bind_pure by exact Hf. exact H.
  - right. apply fst_bind_raised, H.
Qed.

Lemma lor_subpath_get_then {A} net e self path params (f : pyval -> M A) :
  every_get_raises net e ->
  local_or_raises net e (bind (SubpathClient.get self path params) f).
Proof.
  intros H log. right. apply fst_bind_raised.
  unfold SubpathClient.get. apply fst_bind_raised. apply H.
Qed.

Lemma lor_prepare_get_page net e self (pre : outcome pyval) path :
  every_get_raises net e ->
  local_or_raises net e (params <- lift pre ;;
                         response <- SubpathClient.get self path params ;;
                         lift (page_of response)).
Proof.
  intros H. apply lor_lift_bind. intros params. apply lor_subpath_get_then, H.
Qed.

Lemma lor_paginated net e func self args kwargs :
  (forall fr, local_or_raises net e (func_body func self fr)) ->
  local_or_raises net e (Utils.paginated func self args kwargs).
Proof.
  intros H. unfold Utils.paginated.
  apply lor_bind_pure; [|apply pure_step_finish].
  unfold call. apply lor_lift_bind. exact H.
Qed.

Lemma lor_address_txns_body net e cs endpoint self fr :
  every_get_raises net e ->
  local_or_raises net e (AddressesClient.address_txns_body cs endpoint self fr).
Proof.
  intros H. unfold AddressesClient.address_txns_body.
  apply lor_bind_pure; [|pure_cont].
  unfold AddressesClient._get_address_txns.
  apply lor_lift_bind. intros p. apply lor_subpath_get_then, H.
Qed.

(** X16.  On a transport where every GET of the handler ends in one error
    (a read timeout, a 500, a 400 with its message, ...), every decorated
    endpoint method either fails before issuing a request or raises exactly
    that error: no endpoint catches, replaces or wraps what the handler
    raises. *)
Theorem endpoints_propagate_handler_error
    (cs : pyval -> string) (client : Client.t) (e : endpoint)
    (args : list pyval) (kwargs : dict) (net : transport) (err : exn)
    (log : list Request) :
  every_get_raises net err ->
  snd (invoke_endpoint cs client e args kwargs net log) = log \/
  fst (invoke_endpoint cs client e args kwargs net log) = Raised err.
Proof.
  intros H.
  assert (Hl : local_or_raises net err (invoke_endpoint cs client e args kwargs)).
  { destruct e as [m|e|]; simpl.
    - destruct m; simpl; apply lor_paginated; intros fr;
        try (apply lor_prepare_get_page, H);
        try (apply lor_address_txns_body, H).
    - unfold invoke_page. apply lor_paginated. intros fr.
      destruct e; apply lor_subpath_get_then, H.
    - apply lor_paginated. intros fr. apply lor_prepare_get_page, H. }
  apply Hl.
Qed.

Lemma always_times_out_raises :
  every_get_raises always_times_out (PulseChainTimeoutException "timed out").
Proof. intros self path params log. reflexivity. Qed.

Lemma answers_500_raises :
  every_get_raises answers_500
    (PulseChainServerError (mkResponse 500 "Internal Server Error" None)).
Proof. intros self path params log. reflexivity. Qed.

Lemma endpoints_propagate_handler_error_witness :
  fst (invoke_endpoint (fun _ => EmptyString) Client.init
         (Page Addresses_get_withdrawals) [VStr "0xabc"] []
         always_times_out [])
    = Raised (PulseChainTimeoutException "timed out") /\
  fst (invoke_endpoint (fun _ => EmptyString) Client.init
         (Validating Blocks_get_blocks) [] [] answers_500 [])
    = Raised (PulseChainServerError (mkResponse 500 "Internal Server Error" None)).
Proof.
  split.
  - destruct (endpoints_propagate_handler_error (fun _ => EmptyString)
                Client.init (Page Addresses_get_withdrawals) [VStr "0xabc"] []
                always_times_out _ [] always_times_out_raises) as [H|H];
      [discriminate H|exact H].
  - destruct (endpoints_propagate_handler_error (fun _ => EmptyString)
                Client.init (Validating Blocks_get_blocks) [] []
                answers_500 _ [] answers_500_raises) as [H|H];
      [discriminate H|exact H].
Defined.

(** ** Filters and the cursor *)










(** X20.  Unlike [get_blocks], [search] writes [q] into the seed itself:
    called with a seed that is no dictionary, as with
    [next_page_params=None], it raises [TypeError] (no item assignment) and
    issues no request. *)
Theorem search_needs_a_dictionary_cursor
    (self : SubpathClient.t) (query : pyval) (kwargs : dict)
    (net : transport) (log : list Request) :
  is_dict (seed_of kwargs) = false ->
  SearchClient.search self [query] kwargs net log
    = (Raised (TypeError NoItemAssignment), log).
Proof.
  intros H.
  unfold SearchClient.search, Utils.paginated, Utils.forwarded. cbn [fst snd].
  change (fst (pop "next_page_params" (VDict []) kwargs)) with (seed_of kwargs).
  revert H. generalize (seed_of kwargs). intros seed H.
  destruct seed; try discriminate; reflexivity.
Qed.

Lemma search_needs_a_dictionary_cursor_witness :
  SearchClient.search (Client.search Client.init) [VStr "pls"]
    [("next_page_params", VNone)] answers_empty_page []
    = (Raised (TypeError NoItemAssignment), []).
Proof.
  apply (search_needs_a_dictionary_cursor (Client.search Client.init)
           (VStr "pls") [("next_page_params", VNone)] answers_empty_page []).
  reflexivity.
Defined.

(** ** Methods that are not paginated *)

(** X21.  The four contract-method endpoints ([get_read_methods],
    [get_read_methods_proxy], [get_write_methods],
    [get_write_methods_proxy]) request
    [<subpath>/<address>/methods-<kind>] with [is_custom_abi] always
    present, as the string ["true"] or ["false"], and with [from] present
    exactly when a truthy [from_addr] is given. *)
Theorem contract_methods_request
    (cs : pyval -> string) (self : SubpathClient.t)
    (address from_addr is_custom_abi : pyval)
    (net : transport) (log : list Request) :
  let params :=
    VDict (("is_custom_abi",
            VStr (if truthy is_custom_abi then "true" else "false"))
           :: (if truthy from_addr then [("from", from_addr)] else [])) in
  let request kind :=
    APIRequestHandler.request_of (SubpathClient.request_handler self)
      (SubpathClient.subpath self ++ "/" ++ format_value cs address
       ++ "/methods-" ++ kind) params in
  snd (SmartContractsClient.get_read_methods cs self address from_addr
         is_custom_abi net log) = (log ++ [request "read"])%list /\
  snd (SmartContractsClient.get_read_methods_proxy cs self address from_addr
         is_custom_abi net log) = (log ++ [request "read-proxy"])%list /\
  snd (SmartContractsClient.get_write_methods cs self address from_addr
         is_custom_abi net log) = (log ++ [request "write"])%list /\
  snd (SmartContractsClient.get_write_methods_proxy cs self address from_addr
         is_custom_abi net log) = (log ++ [request "write-proxy"])%list.
Proof.
  cbv zeta.
  assert (H : forall kind,
    snd (SmartContractsClient._get_methods cs self address kind from_addr
           is_custom_abi net log)
    = (log ++ [APIRequestHandler.request_of (SubpathClient.request_handler self)
                 (SubpathClient.subpath self ++ "/" ++ format_value cs address
                  ++ "/methods-" ++ kind)
                 (VDict (("is_custom_abi",
                          VStr (if truthy is_custom_abi then "true" else "false"))
                         :: (if truthy from_addr then [("from", from_addr)]
                             else [])))])%list).
  { intros kind. unfold SmartContractsClient._get_methods, set_if.
    destruct (truthy from_addr); cbn [obind setitem store String.eqb Ascii.eqb
                                      Bool.eqb];
      rewrite snd_bind_returned, one_request_get_then;
      change (format_value cs address ++ "/methods-" ++ kind)
        with (format_value cs address ++ "/" ++ ("methods-" ++ kind));
      rewrite full_path_segment; reflexivity. }
  repeat split; apply H.
Qed.

Lemma get_then_items_200 self path params net log r l :
  (forall lg req, net lg req = Responds r) ->
  status_code r = 200%Z ->
  forallb is_dict l = true ->
  (json r = Some (VList l) \/
   exists b, json r = Some (VDict b) /\ lookup "items" b = Some (VList l)) ->
  fst ((response <- SubpathClient.get self path params ;;
        lift (items_only response)) net log)
    = Returned (mkBaseResponse l).
Proof.
  intros Hnet Hs Hl Hbody. unfold bind at 1.
  destruct Hbody as [Hj|[b [Hj Hb]]];
    rewrite (subpath_get_200 _ _ _ _ _ _ _ (Hnet _ _) Hs Hj);
    unfold lift, items_only, envelope, getitem, obind; simpl;
    [|rewrite Hb]; unfold BaseResponse_new; rewrite Hl; reflexivity.
Qed.

(** X22.  The list endpoints that are not paginated accept both shapes of
    answer: whether the server sends the records as a bare list or inside a
    mapping under [items], the call returns the same [BaseResponse] with
    exactly those records, in order. *)
Theorem list_methods_accept_both_shapes
    (cs : pyval -> string) (self : SubpathClient.t)
    (x from_addr is_custom_abi : pyval) (net : transport) (log : list Request)
    (r : Response) (l : list pyval) :
  (forall lg req, net lg req = Responds r) ->
  status_code r = 200%Z ->
  forallb is_dict l = true ->
  (json r = Some (VList l) \/
   exists b, json r = Some (VDict b) /\ lookup "items" b = Some (VList l)) ->
  let returns (m : M BaseResponse) :=
    fst (m net log) = Returned (mkBaseResponse l) in
  returns (AddressesClient.get_pls_holders_list self) /\
  returns (AddressesClient.get_logs cs self x) /\
  returns (AddressesClient.get_token_balances cs self x) /\
  returns (AddressesClient.get_coin_balance_history_by_day cs self x) /\
  returns (SmartContractsClient.get_read_methods cs self x from_addr
             is_custom_abi) /\
  returns (SmartContractsClient.get_read_methods_proxy cs self x from_addr
             is_custom_abi) /\
  returns (SmartContractsClient.get_write_methods cs self x from_addr
             is_custom_abi) /\
  returns (SmartContractsClient.get_write_methods_proxy cs self x from_addr
             is_custom_abi).
Proof.
  intros Hnet Hs Hl Hbody. cbv zeta.
  assert (Hm : forall kind,
    fst (SmartContractsClient._get_methods cs self x kind from_addr
           is_custom_abi net log) = Returned (mkBaseResponse l)).
  { intros kind. unfold SmartContractsClient._get_methods, set_if.
    destruct (truthy from_addr); cbn [obind setitem];
      unfold bind at 1; cbn [lift];
      apply (get_then_items_200 _ _ _ _ _ _ _ Hnet Hs Hl Hbody). }
  repeat match goal with |- _ /\ _ => split end;
    try apply (get_then_items_200 _ _ _ _ _ _ _ Hnet Hs Hl Hbody);
    apply Hm.
Qed.

Lemma list_methods_accept_both_shapes_witness :
  fst (AddressesClient.get_token_balances (fun _ => EmptyString)
         (Client.addresses Client.init) (VStr "0xabc") answers_bare_list [])
    = Returned (mkBaseResponse [VDict [("a", VInt 1)]]) /\
  fst (AddressesClient.get_token_balances (fun _ => EmptyString)
         (Client.addresses Client.init) (VStr "0xabc") answers_page [])
    = Returned (mkBaseResponse [VDict [("hash", VStr "0x1")];
                                VDict [("hash", VStr "0x2")]]).
Proof.
  split.
  - exact (proj1 (proj2 (proj2 (list_methods_accept_both_shapes
             (fun _ => EmptyString) (Client.addresses Client.init)
             (VStr "0xabc") VNone VNone answers_bare_list [] _
             [VDict [("a", VInt 1)]]
             (fun _ _ => eq_refl) eq_refl eq_refl (or_introl eq_refl))))).
  - exact (proj1 (proj2 (proj2 (list_methods_accept_both_shapes
             (fun _ => EmptyString) (Client.addresses Client.init)
             (VStr "0xabc") VNone VNone answers_page [] _
             [VDict [("hash", VStr "0x1")]; VDict [("hash", VStr "0x2")]]
             (fun _ _ => eq_refl) eq_refl eq_refl
             (or_intror (ex_intro _ _ (conj eq_refl eq_refl))))))).
Defined.

Lemma record_methods_shape cs f :
  In f (record_methods cs) ->
  f = (fun self x =>
         response <- SubpathClient.get_at cs self x VNone ;;
         lift (single_record response)).
Proof.
  unfold record_methods. simpl.
  intros [H|[H|[H|[H|[H|[]]]]]]; subst f; reflexivity.
Qed.

(** X23.  The single-record methods ([get_info] of addresses, tokens and
    smart contracts, [get_block_info], [get_transaction_info]) hand their
    argument on as the path, and a falsy path is no path: called with the
    empty string (or [None], or the number 0) they request the collection
    [<base>/<subpath>] itself; called with a non-empty string they request
    [<base>/<subpath>/<string>]. *)
Theorem record_methods_path
    (cs : pyval -> string) (f : SubpathClient.t -> pyval -> M BaseResponse)
    (self : SubpathClient.t) (x : pyval) (net : transport) (log : list Request) :
  In f (record_methods cs) ->
  (truthy x = false ->
   snd (f self x net log)
     = (log ++ [APIRequestHandler.request_of (SubpathClient.request_handler self)
                  (SubpathClient.subpath self) VNone])%list) /\
  (forall s, x = VStr s -> s <> EmptyString ->
   snd (f self x net log)
     = (log ++ [APIRequestHandler.request_of (SubpathClient.request_handler self)
                  (SubpathClient.subpath self ++ "/" ++ s) VNone])%list).
Proof.
  intros Hin. rewrite (record_methods_shape cs f Hin).
  split.
  - intros Hx. rewrite one_request_get_at_then.
    unfold SubpathClient.full_path_of. rewrite Hx. reflexivity.
  - intros s -> Hs. rewrite one_request_get_at_then.
    unfold SubpathClient.full_path_of. cbn [truthy format_value].
    apply String.eqb_neq in Hs. rewrite Hs. reflexivity.
Qed.

Lemma record_methods_path_witness :
  snd (AddressesClient.get_info (fun _ => EmptyString)
         (Client.addresses Client.init) (VStr EmptyString) answers_empty_page [])
    = [mkRequest "https://api.scan.pulsechain.com/api/v2/addresses" VNone 60] /\
  snd (BlocksClient.get_block_info (fun _ => EmptyString)
         (Client.blocks Client.init) (VStr "17") answers_empty_page [])
    = [mkRequest "https://api.scan.pulsechain.com/api/v2/blocks/17" VNone 60].
Proof.
  split.
  - exact (proj1 (record_methods_path (fun _ => EmptyString)
                    (AddressesClient.get_info (fun _ => EmptyString))
                    (Client.addresses Client.init) (VStr EmptyString)
                    answers_empty_page [] (or_introl eq_refl)) eq_refl).
  - refine (proj2 (record_methods_path (fun _ => EmptyString)
                    (BlocksClient.get_block_info (fun _ => EmptyString))
                    (Client.blocks Client.init) (VStr "17")
                    answers_empty_page [] (or_intror (or_introl eq_refl)))
                  "17" eq_refl _).
    discriminate.
Defined.

Lemma get_at_200 cs self path params net log r body :
  (forall lg req, net lg req = Responds r) ->
  status_code r = 200%Z -> json r = Some body ->
  fst (SubpathClient.get_at cs self path params net log)
    = Returned (envelope body).
Proof.
  intros Hnet Hs Hj.
  unfold SubpathClient.get_at, bind, APIRequestHandler.get, httpx_get.
  rewrite Hnet. unfold APIRequestHandler._check_result. rewrite Hs, Hj.
  reflexivity.
Qed.

(** X24.  A single-record method returns exactly one item.  When the
    server answers with a mapping, the item is that mapping; when it
    answers with a bare list, the item is the envelope [{"items": list}],
    not the records of the list. *)
Theorem record_methods_return_one_item
    (cs : pyval -> string) (f : SubpathClient.t -> pyval -> M BaseResponse)
    (self : SubpathClient.t) (x : pyval) (net : transport) (log : list Request)
    (r : Response) :
  In f (record_methods cs) ->
  (forall lg req, net lg req = Responds r) ->
  status_code r = 200%Z ->
  (forall d, json r = Some (VDict d) ->
     fst (f self x net log) = Returned (mkBaseResponse [VDict d])) /\
  (forall l, json r = Some (VList l) ->
     fst (f self x net log)
       = Returned (mkBaseResponse [VDict [("items", VList l)]])).
Proof.
  intros Hin Hnet Hs. rewrite (record_methods_shape cs f Hin).
  split; intros y Hj; unfold bind;
    pose proof (get_at_200 cs self x VNone net log r _ Hnet Hs Hj) as Hget;
    destruct (SubpathClient.get_at cs self x VNone net log) as [o lg];
    simpl in Hget; subst o; reflexivity.
Qed.

Lemma record_methods_return_one_item_witness :
  fst (TokensClient.get_info (fun _ => EmptyString) (Client.tokens Client.init)
         (VStr "0xabc") answers_bare_list [])
    = Returned (mkBaseResponse
                  [VDict [("items", VList [VDict [("a", VInt 1)]])]]).
Proof.
  exact (proj2 (record_methods_return_one_item (fun _ => EmptyString)
                  (TokensClient.get_info (fun _ => EmptyString))
                  (Client.tokens Client.init) (VStr "0xabc")
                  answers_bare_list [] _
                  (or_intror (or_intror (or_introl eq_refl)))
                  (fun _ _ => eq_refl) eq_refl)
               [VDict [("a", VInt 1)]] eq_refl).
Defined.

(** X25.  The two ungrouped endpoints of [Client] go to the handler
    directly: [get_withdrawals] and [get_json_rpc_url] return the decoded
    body as it is, so a bare list stays a list and is not enveloped as the
    sub-clients do. *)
Theorem client_endpoints_return_body_unchanged
    (client : Client.t) (params : pyval) (net : transport) (log : list Request)
    (r : Response) (body : pyval) :
  (forall lg req, net lg req = Responds r) ->
  status_code r = 200%Z -> json r = Some body ->
  Client.get_withdrawals client params net log
    = (Returned body,
       (log ++ [APIRequestHandler.request_of (Client.request_handler client)
                  "withdrawals" params])%list) /\
  Client.get_json_rpc_url client net log
    = (Returned body,
       (log ++ [APIRequestHandler.request_of (Client.request_handler client)
                  "config/json-rpc-url" VNone])%list).
Proof.
  intros Hnet Hs Hj.
  unfold Client.get_withdrawals, Client.get_json_rpc_url,
    APIRequestHandler.get, httpx_get.
  rewrite !Hnet. unfold APIRequestHandler._check_result. rewrite Hs, Hj.
  split; reflexivity.
Qed.

Lemma client_endpoints_return_body_unchanged_witness :
  Client.get_withdrawals Client.init VNone answers_bare_list []
    = (Returned (VList [VDict [("a", VInt 1)]]),
       [mkRequest "https://api.scan.pulsechain.com/api/v2/withdrawals" VNone 60]).
Proof.
  exact (proj1 (client_endpoints_return_body_unchanged Client.init VNone
                  answers_bare_list [] _ _ (fun _ _ => eq_refl) eq_refl eq_refl)).
Defined.

(** ** The address filter *)

(** X26.  [AddressesClient.get_transactions] and
    [get_internal_transactions] validate any [txn_filter] other than [None],
    the empty string included: when such a call issues a request at all,
    the filter is ["to"] or ["from"], the seed is a dictionary, and the
    query is the seed with [filter] set to that value. *)
Theorem address_txn_filter_is_sent_or_refused
    (cs : pyval -> string) (self : SubpathClient.t)
    (address txn_filter : pyval) (kwargs : dict)
    (net : transport) (log : list Request) :
  txn_filter <> VNone ->
  let sent (m : M PaginatedResponse) (endpoint : string) :=
    snd (m net log) = log \/
    ((txn_filter = VStr "to" \/ txn_filter = VStr "from") /\
     exists d, seed_of kwargs = VDict d /\
       snd (m net log)
         = (log ++ [APIRequestHandler.request_of
                      (SubpathClient.request_handler self)
                      (SubpathClient.subpath self ++ "/" ++
                       format_value cs address ++ "/" ++ endpoint)
                      (VDict (store "filter" txn_filter d))])%list) in
  sent (AddressesClient.get_transactions cs self [address; txn_filter] kwargs)
       "transactions" /\
  sent (AddressesClient.get_internal_transactions cs self [address; txn_filter]
          kwargs) "internal-transactions".
Proof.
  intros Hne. cbv zeta.
  assert (H : forall endpoint func,
    func_sig func = mkSig [("address", None); ("txn_filter", Some VNone)] true ->
    func_body func = AddressesClient.address_txns_body cs endpoint ->
    snd (Utils.paginated func self [address; txn_filter] kwargs net log) = log \/
    ((txn_filter = VStr "to" \/ txn_filter = VStr "from") /\
     exists d, seed_of kwargs = VDict d /\
       snd (Utils.paginated func self [address; txn_filter] kwargs net log)
         = (log ++ [APIRequestHandler.request_of
                      (SubpathClient.request_handler self)
                      (SubpathClient.subpath self ++ "/" ++
                       format_value cs address ++ "/" ++ endpoint)
                      (VDict (store "filter" txn_filter d))])%list)).
  { intros endpoint func Hsig Hbody.
    unfold Utils.paginated.
    rewrite snd_bind_pure by apply pure_step_finish.
    unfold Utils.forwarded. cbn [fst snd].
    change (fst (pop "next_page_params" (VDict []) kwargs)) with (seed_of kwargs).
    generalize (seed_of kwargs). intros seed.
    unfold call. rewrite Hsig, Hbody.
    eval_bind_args. rewrite snd_bind_returned.
    unfold AddressesClient.address_txns_body.
    rewrite snd_bind_pure by pure_cont.
    cbn [kwargs_rest pop lookup String.eqb Ascii.eqb Bool.eqb fst local locals].
    unfold AddressesClient._get_address_txns.
    assert (Hpre :
      (match txn_filter with
       | VNone => Returned seed
       | _ => try f <- Validators.validate_address_txn_filter txn_filter ;
              setitem seed "filter" f
       end)
      = try f <- Validators.validate_address_txn_filter txn_filter ;
        setitem seed "filter" f).
    { destruct txn_filter; try reflexivity. contradiction Hne; reflexivity. }
    rewrite Hpre. clear Hpre.
    unfold Validators.validate_address_txn_filter.
    destruct txn_filter as [| b | z | s | l | d0];
      try (left; reflexivity).
    cbn [not_in obind existsb Validators.valid_address_txn_filters].
    destruct (String.eqb s "to") eqn:Eto;
      [|destruct (String.eqb s "from") eqn:Efrom];
      cbn [orb negb obind]; try (left; reflexivity);
      (destruct seed as [| | | | |d]; try (left; reflexivity);
       right; split;
       [first [apply String.eqb_eq in Eto; subst s; left; reflexivity
              |apply String.eqb_eq in Efrom; subst s; right; reflexivity]
       |exists d; split; [reflexivity|];
        cbn [setitem]; rewrite snd_bind_returned;
        rewrite snd_bind_pure by pure_cont;
        rewrite subpath_get_log, full_path_segment; reflexivity]). }
  split; apply H; reflexivity.
Qed.

Lemma address_txn_filter_is_sent_or_refused_witness :
  snd (AddressesClient.get_transactions (fun _ => EmptyString)
         (Client.addresses Client.init) [VStr "0xabc"; VStr EmptyString] []
         answers_empty_page []) = [].
Proof.
  destruct (proj1 (address_txn_filter_is_sent_or_refused (fun _ => EmptyString)
                     (Client.addresses Client.init) (VStr "0xabc")
                     (VStr EmptyString) [] answers_empty_page []
                     ltac:(discriminate)))
    as [H|[[H|H] _]]; [exact H|discriminate H|discriminate H].
Defined.

(** ** The seed and the request, endpoint by endpoint *)









